(** * Deprecation detection and notification sinks of urllib3

    A shallow embedding of [src/urllib3/deprecation.py], [src/urllib3/slack.py]
    and [src/urllib3/jira.py].

    Python values that come out of [json.load] (the OpenAPI document, the Slack
    history file, the Jira responses) are modelled by the type [json] below;
    the Python operators the code applies to them ([in], subscripting,
    iteration, truthiness, [==]) are modelled on every shape of value, with
    the exception Python raises where it raises one.

    Modelling conventions:
    - a [str] is a [string]; [str.lower] and [str.upper], which follow the
      case tables of the interpreter, are parameters of the development (the
      class [Casing]), and the examples run on strings of ASCII characters;
    - a JSON number is an integer ([Z]); fractional numbers are not
      represented;
    - a [dict] is an association list in insertion order, looked up by its
      first matching key; dictionaries built by Python have distinct keys. *)

From Stdlib Require Import ZArith Ascii String.
From Stdlib Require Import DecimalString ZifyNat.
From stdpp Require Import base option list strings sorting gmap.

#[local] Set Warnings "-register-all".

(** ** Python values and exceptions *)

Inductive json : Type :=
| JNull
| JBool (b : bool)
| JNum (n : Z)
| JStr (s : string)
| JArr (l : list json)
| JObj (o : list (string * json)).

Inductive exn : Type :=
| KeyError (arg : string)
| TypeError
| AttributeError
| IndexError
| ValueError
| TransportError.

Inductive result (A : Type) : Type :=
| Ok (a : A)
| Raise (e : exn).
Arguments Ok {A} a.
Arguments Raise {A} e.

Global Instance result_ret : MRet result := λ A a, Ok a.
Global Instance result_bind : MBind result := λ A B f m,
  match m with
  | Ok a => f a
  | Raise e => Raise e
  end.

Definition raises_KeyError {A} (r : result A) : Prop :=
  match r with
  | Raise (KeyError _) => True
  | _ => False
  end.

(** ** Strings *)

Definition dquote : string := String "034"%char EmptyString.
Definition newline : string := String "010"%char EmptyString.

Definition ascii_lower (c : ascii) : ascii :=
  let n := nat_of_ascii c in
  if (65 <=? n)%nat && (n <=? 90)%nat then ascii_of_nat (n + 32) else c.

Definition ascii_upper (c : ascii) : ascii :=
  let n := nat_of_ascii c in
  if (97 <=? n)%nat && (n <=? 122)%nat then ascii_of_nat (n - 32) else c.

(** [s.lower()] and [s.upper()]. What they do to a letter is decided by the
    case tables of the interpreter, which are no part of the program: the two
    functions are parameters, and nothing is assumed of them. *)
Class Casing := {
  lower : string → string;
  upper : string → string
}.

(** The two functions on strings of ASCII characters, where they change the
    twenty-six letters and nothing else; the examples run on them. *)
Fixpoint lower_ascii (s : string) : string :=
  match s with
  | EmptyString => EmptyString
  | String c s' => String (ascii_lower c) (lower_ascii s')
  end.

Fixpoint upper_ascii (s : string) : string :=
  match s with
  | EmptyString => EmptyString
  | String c s' => String (ascii_upper c) (upper_ascii s')
  end.

Definition ascii_casing : Casing := {|
  lower := lower_ascii;
  upper := upper_ascii
|}.

(** [x in s] for two strings: [x] occurs in [s] as a contiguous run. *)
Fixpoint str_contains (x s : string) : bool :=
  String.prefix x s ||
  match s with
  | EmptyString => false
  | String _ s' => str_contains x s'
  end.

(** [sep.join(l)] *)
Fixpoint join (sep : string) (l : list string) : string :=
  match l with
  | [] => EmptyString
  | [x] => x
  | x :: l' => x +:+ sep +:+ join sep l'
  end.

(** [sorted(l)] on a list of strings: ascending by character codes. The
    order is total and antisymmetric, so every sorting algorithm returns the
    same list. *)
Definition sorted (l : list string) : list string := merge_sort String.le l.

(** ** Dictionaries *)

Fixpoint dict_get {A} (k : string) (o : list (string * A)) : option A :=
  match o with
  | [] => None
  | (k', v) :: o' => if String.eqb k k' then Some v else dict_get k o'
  end.

(** ** Python operators on JSON values *)

(** [a == b]. A [bool] is an [int] in Python, so [True == 1]. Two
    dictionaries are equal when they have the same number of keys and every
    key of the first is bound in the second to an equal value. *)
Fixpoint py_eq (a b : json) : bool :=
  match a, b with
  | JNull, JNull => true
  | JBool x, JBool y => Bool.eqb x y
  | JBool x, JNum n => (n =? (if x then 1 else 0))%Z
  | JNum n, JBool x => (n =? (if x then 1 else 0))%Z
  | JNum n, JNum m => (n =? m)%Z
  | JStr s, JStr t => String.eqb s t
  | JArr l, JArr l' =>
      (fix go (l : list json) (l' : list json) : bool :=
         match l, l' with
         | [], [] => true
         | x :: xs, y :: ys => py_eq x y && go xs ys
         | _, _ => false
         end) l l'
  | JObj o, JObj o' =>
      (length o =? length o')%nat &&
      (fix go (o : list (string * json)) : bool :=
         match o with
         | [] => true
         | (k, v) :: r =>
             match dict_get k o' with
             | Some v' => py_eq v v'
             | None => false
             end && go r
         end) o
  | _, _ => false
  end.

(** [bool(v)] *)
Definition truthy (v : json) : bool :=
  match v with
  | JNull => false
  | JBool b => b
  | JNum n => negb (n =? 0)%Z
  | JStr s => negb (String.eqb s EmptyString)
  | JArr l => negb (bool_decide (length l = 0%nat))
  | JObj o => negb (bool_decide (length o = 0%nat))
  end.

(** [x in l] for a JSON value [x] and a list of strings [l]. *)
Definition in_str_list (x : json) (l : list string) : bool :=
  existsb (λ s, py_eq (JStr s) x) l.

(** [x in c] for a string [x]: key membership on a dictionary, element
    membership on a list, substring test on a string. *)
Definition py_contains (x : string) (c : json) : result bool :=
  match c with
  | JObj o => Ok (bool_decide (is_Some (dict_get x o)))
  | JArr l => Ok (existsb (λ e, py_eq e (JStr x)) l)
  | JStr s => Ok (str_contains x s)
  | JNull | JBool _ | JNum _ => Raise TypeError
  end.

(** [c[k]] for a string [k]. *)
Definition py_getitem (c : json) (k : string) : result json :=
  match c with
  | JObj o =>
      match dict_get k o with
      | Some v => Ok v
      | None => Raise (KeyError k)
      end
  | _ => Raise TypeError
  end.

Fixpoint str_chars (s : string) : list json :=
  match s with
  | EmptyString => []
  | String c s' => JStr (String c EmptyString) :: str_chars s'
  end.

(** [for x in c]: the elements of a list, the keys of a dictionary, the
    characters of a string. *)
Definition py_iter (c : json) : result (list json) :=
  match c with
  | JArr l => Ok l
  | JObj o => Ok (map (λ kv, JStr kv.1) o)
  | JStr s => Ok (str_chars s)
  | JNull | JBool _ | JNum _ => Raise TypeError
  end.

(** ** deprecation.py: detection *)

Definition path_not_found (path : string) : exn :=
  KeyError ("Path " +:+ path +:+ " not found in the OpenAPI specification.").

Definition method_not_found `{Casing} (path method : string) : exn :=
  KeyError ("Method " +:+ upper method +:+ " for path " +:+ path +:+
            " not found in the OpenAPI specification.").

Definition parameters_not_found `{Casing} (path method : string) : exn :=
  KeyError ("No parameters found for " +:+ path +:+ " with method " +:+
            upper method +:+ " in the OpenAPI specification.").

(** The lookup both detection functions start with: [oas["paths"][path]
    [method.lower()]], guarded by the two membership tests. *)
Definition find_operation `{Casing} (oas : json) (path method : string) : result json :=
  paths ← py_getitem oas "paths";
  has_path ← py_contains path paths;
  if negb has_path then Raise (path_not_found path) else
  item ← py_getitem paths path;
  has_method ← py_contains (lower method) item;
  if negb has_method then Raise (method_not_found path method) else
  py_getitem item (lower method).

Definition is_operation_deprecated `{Casing} (oas : json) (path method : string)
  : result json :=
  op ← find_operation oas path method;
  has_flag ← py_contains "deprecated" op;
  if negb has_flag then Ok (JBool false) else
  py_getitem op "deprecated".

(** The condition of the loop of [are_parameter_deprecated]; [and] stops at
    the first false operand, so a later subscript is only evaluated when the
    earlier operands hold. *)
Definition parameter_flagged (parameter : list string) (po : json)
  : result bool :=
  has_flag ← py_contains "deprecated" po;
  if negb has_flag then Ok false else
  flag ← py_getitem po "deprecated";
  if negb (truthy flag) then Ok false else
  name ← py_getitem po "name";
  if negb (in_str_list name parameter) then Ok false else
  loc ← py_getitem po "in";
  Ok (py_eq loc (JStr "query")).

Fixpoint scan_parameters (parameter : list string) (pos : list json)
  (deprecatedParams : list json) : result (list json) :=
  match pos with
  | [] => Ok deprecatedParams
  | po :: rest =>
      flagged ← parameter_flagged parameter po;
      if (flagged : bool) then
        name ← py_getitem po "name";
        scan_parameters parameter rest (deprecatedParams ++ [name])
      else scan_parameters parameter rest deprecatedParams
  end.

Definition are_parameter_deprecated `{Casing} (oas : json) (path method : string)
  (parameter : list string) : result (bool * list json) :=
  op ← find_operation oas path method;
  has_params ← py_contains "parameters" op;
  if negb has_params then Raise (parameters_not_found path method) else
  params ← py_getitem op "parameters";
  pos ← py_iter params;
  deprecatedParams ← scan_parameters parameter pos [];
  Ok (negb (py_eq (JArr deprecatedParams) (JArr [])), deprecatedParams).

(** ** Printing values: [repr] and [str] *)

Definition hex_digit (n : nat) : ascii :=
  if (n <? 10)%nat then ascii_of_nat (48 + n) else ascii_of_nat (87 + n).

Definition repr_char (quote : ascii) (c : ascii) : string :=
  let n := nat_of_ascii c in
  if Ascii.eqb c quote || Ascii.eqb c "092"%char
  then String "092"%char (String c EmptyString)
  else if Ascii.eqb c "009"%char then String "092"%char "t"
  else if Ascii.eqb c "010"%char then String "092"%char "n"
  else if Ascii.eqb c "013"%char then String "092"%char "r"
  else if (n <? 32)%nat || (n =? 127)%nat
  then String "092"%char
         (String "x"%char
            (String (hex_digit (n / 16)) (String (hex_digit (n mod 16)) EmptyString)))
  else String c EmptyString.

Fixpoint repr_chars (quote : ascii) (s : string) : string :=
  match s with
  | EmptyString => EmptyString
  | String c s' => repr_char quote c +:+ repr_chars quote s'
  end.

(** [repr(s)] of a string: single quotes, unless the string holds a single
    quote and no double quote. *)
Definition str_repr (s : string) : string :=
  let quote :=
    if str_contains "'" s && negb (str_contains dquote s)
    then "034"%char else "'"%char in
  String quote (repr_chars quote s) +:+ String quote EmptyString.

Definition int_repr (n : Z) : string := NilZero.string_of_int (Z.to_int n).

Fixpoint py_repr (v : json) : string :=
  match v with
  | JNull => "None"
  | JBool true => "True"
  | JBool false => "False"
  | JNum n => int_repr n
  | JStr s => str_repr s
  | JArr l => "[" +:+ join ", " (map py_repr l) +:+ "]"
  | JObj o =>
      "{" +:+ join ", " (map (λ '(k, v), str_repr k +:+ ": " +:+ py_repr v) o)
          +:+ "}"
  end.

(** [str(v)], which is what an f-string prints. *)
Definition py_str (v : json) : string :=
  match v with
  | JStr s => s
  | _ => py_repr v
  end.

(** [v[0]] *)
Definition py_first (v : json) : result json :=
  match v with
  | JArr (x :: _) => Ok x
  | JArr [] => Raise IndexError
  | JStr (String c _) => Ok (JStr (String c EmptyString))
  | JStr EmptyString => Raise IndexError
  | JObj _ => Raise (KeyError "0")
  | JNull | JBool _ | JNum _ => Raise TypeError
  end.

(** ** The collaborators: [datetime], [json.dumps] and the HTTP client *)

Class Datetime := {
  datetime : Type;
  tzinfo : Type;
  (** [d.isoformat()] *)
  isoformat : datetime → string;
  (** [datetime.strptime(s, fmt)] at the format of the Jira server time *)
  strptime_server : string → result datetime;
  (** [d.tzinfo] *)
  dt_tzinfo : datetime → tzinfo;
  (** [d.astimezone(tz)] *)
  astimezone : datetime → tzinfo → datetime;
  (** [d.strftime(fmt)] at the format year-month-day hour:minute *)
  strftime_minute : datetime → string
}.

Record http_call := HttpCall {
  call_verb : string;
  call_url : string;
  call_fields : list (string * string);
  call_headers : list (string * string);
  call_body : option string
}.

(** [PoolManager().request(...)]: the remote side answers a call, or the
    transport raises; either way the remote side may have changed.
    [response_json] is [response.json()]. *)
Class PoolManager := {
  remote : Type;
  response : Type;
  request : http_call → remote → result response * remote;
  response_json : response → result json
}.

Definition iso_or_none `{Datetime} (d : option datetime) : json :=
  match d with
  | Some d => JStr (isoformat d)
  | None => JNull
  end.

(** ** deprecation.py: the log sink *)

Record Logger := {
  logger_name : string;
  logger_level : Z;
  logger_handlers : list (string * string)
}.

(** The loggers of the [logging] module are objects that every holder shares
    and that the module keeps by name: a configuration holds its logger by
    reference, the name, and the loggers themselves live in a map from names
    to loggers. *)
Record Logging_Configuration := {
  lvl : Z;
  file : string;
  format : string;
  logger : option string
}.

(** [logging.getLogger(name)]: the logger the module keeps under the name;
    when there is none yet, a new one with no level set and no handler. *)
Definition getLogger (name : string) (loggers : gmap string Logger) : Logger :=
  match loggers !! name with
  | Some lg => lg
  | None => {| logger_name := name; logger_level := 0; logger_handlers := [] |}
  end.

Definition log_message `{Datetime} (deprecation_url http_method : string)
  (deprecated_parameter : option (list string))
  (deprecation_datetime sunset_datetime : option datetime) : string :=
  "Deprecation Alert: URL=" +:+ deprecation_url +:+ ", " +:+
  "HTTP Method=" +:+ http_method +:+ ", " +:+
  "Deprecated Parameters=" +:+
    match deprecated_parameter with
    | Some (p :: ps) => py_repr (JArr (map JStr (p :: ps)))
    | Some [] | None => "None"
    end +:+ ", " +:+
  "Deprecation Date=" +:+
    match deprecation_datetime with
    | Some d => isoformat d
    | None => "None"
    end +:+ ", " +:+
  "Sunset Date=" +:+
    match sunset_datetime with
    | Some d => isoformat d
    | None => "None"
    end.

(** [create_log], on the loggers of the [logging] module. A configuration
    without a logger takes the logger that the module keeps under the name
    deprecation_logger, the same one for every configuration, sets its level,
    adds to it a handler for the file and the format of the configuration,
    and keeps the reference. The function returns the configuration, the
    loggers, and the call [logger.warning(log_message)] it ends with: the
    name of the logger that receives it, and the message. *)
Definition create_log `{Datetime} (config : Logging_Configuration)
  (deprecation_url http_method : string)
  (deprecated_parameter : option (list string))
  (deprecation_datetime sunset_datetime : option datetime)
  (loggers : gmap string Logger)
  : Logging_Configuration * gmap string Logger * (string * string) :=
  let message :=
    log_message deprecation_url http_method deprecated_parameter
      deprecation_datetime sunset_datetime in
  match logger config with
  | Some name => (config, loggers, (name, message))
  | None =>
      let depreacation_logger := getLogger "deprecation_logger" loggers in
      let configured :=
        {| logger_name := logger_name depreacation_logger;
           logger_level := lvl config;
           logger_handlers :=
             logger_handlers depreacation_logger
             ++ [(file config, format config)] |} in
      ({| lvl := lvl config; file := file config; format := format config;
          logger := Some "deprecation_logger" |},
       <["deprecation_logger" := configured]> loggers,
       ("deprecation_logger", message))
  end.

(** ** The world the sinks act on *)

(** The files that hold JSON, by path (a file is modelled by the value
    [json.load] reads from it), and the remote side of the HTTP client. *)
Record world `{PoolManager} := World {
  files : gmap string json;
  net : remote
}.
Arguments World {_} files net.

(** ** slack.py *)

Record Slack_Configuration := {
  webhook_url : string;
  attachment_color : string;
  file_path : string
}.

Definition mrkdwn (text : string) : json :=
  JObj [("type", JStr "mrkdwn"); ("text", JStr text)].

Definition section (fields : list json) : json :=
  JObj [("type", JStr "section"); ("fields", JArr fields)].

(** The message blocks of [send_deprecation_webhook_slack]. *)
Definition slack_template `{Datetime} (deprecation_url http_method : string)
  (deprecated_parameter : option (list string))
  (deprecation_datetime sunset_datetime : option datetime) : list json :=
  let summaryOperation := "An API endpoint is deprecated." in
  let summaryParameter :=
    "At least one parameter of an API endpoint is deprecated." in
  let summary :=
    match deprecated_parameter with
    | Some _ => summaryParameter
    | None => summaryOperation
    end in
  [ JObj [("type", JStr "header");
          ("text", JObj [("type", JStr "plain_text"); ("text", JStr summary)])];
    section [ mrkdwn ("*URL:*" +:+ newline +:+ deprecation_url);
              mrkdwn ("*HTTP-Method*" +:+ newline +:+ "`" +:+ http_method +:+ "`") ];
    JObj [("type", JStr "divider")] ]
  ++ match deprecated_parameter with
     | Some (p :: ps) =>
         [section [mrkdwn ("*Parameter:*" +:+ newline +:+ "`" +:+
                           join ", " (p :: ps) +:+ "`")]]
     | Some [] | None => []
     end
  ++ match deprecation_datetime with
     | Some d =>
         [section [mrkdwn ("*HTTP Deprecation Datetime:*" +:+ newline +:+
                           isoformat d)]]
     | None => []
     end
  ++ match sunset_datetime with
     | Some d =>
         [section [mrkdwn ("*HTTP Sunset Datetime:*" +:+ newline +:+
                           isoformat d)]]
     | None => []
     end.

(** The dictionary [new_message] that both Slack functions build. *)
Definition new_message `{Datetime} (deprecation_url http_method : string)
  (deprecated_parameter : option (list string))
  (deprecation_datetime sunset_datetime : option datetime) : json :=
  JObj [ ("url", JStr deprecation_url);
         ("http-method", JStr http_method);
         ("deprecated-parameter",
           match deprecated_parameter with
           | Some (p :: ps) => JArr (map JStr (sorted (p :: ps)))
           | Some [] | None => JNull
           end);
         ("deprecation-header", iso_or_none deprecation_datetime);
         ("sunset-header", iso_or_none sunset_datetime) ].

Section slack.
Context `{Datetime} `{PoolManager}.
(** [json.dumps] *)
Variable dumps : json → string.

Definition send_deprecation_webhook_slack (config : Slack_Configuration)
  (deprecation_url http_method : string)
  (deprecated_parameter : option (list string))
  (deprecation_datetime sunset_datetime : option datetime)
  (w : world) : result () * world :=
  let template :=
    slack_template deprecation_url http_method deprecated_parameter
      deprecation_datetime sunset_datetime in
  let payload :=
    dumps (JObj [("attachments",
                  JArr [JObj [("color", JStr (attachment_color config));
                              ("blocks", JArr template)]])]) in
  match request (HttpCall "POST" (webhook_url config) [] [] (Some payload))
                (net w) with
  | (Raise e, net') => (Raise e, World (files w) net')
  | (Ok _, net') =>
      let old_messages :=
        match files w !! file_path config with
        | Some content => content
        | None => JArr []
        end in
      match old_messages with
      | JArr l =>
          let message :=
            new_message deprecation_url http_method deprecated_parameter
              deprecation_datetime sunset_datetime in
          (Ok (),
           World (<[file_path config := JArr (l ++ [message])]> (files w))
                 net')
      | _ => (Raise AttributeError, World (files w) net')
      end
  end.

Definition check_if_already_send (config : Slack_Configuration)
  (deprecation_url http_method : string)
  (deprecated_parameter : option (list string))
  (deprecation_datetime sunset_datetime : option datetime)
  (w : world) : result bool :=
  let message :=
    new_message deprecation_url http_method deprecated_parameter
      deprecation_datetime sunset_datetime in
  match files w !! file_path config with
  | None => Ok false
  | Some old_messages =>
      messages ← py_iter old_messages;
      Ok (existsb (λ m, py_eq message m) messages)
  end.

(** Modelled from the spec: the caller of the Slack sink, which is not part
    of the three source files. It sends only when the check says the event
    was not sent before, and returns what the check said. *)
Definition slack_emit_then_record (config : Slack_Configuration)
  (deprecation_url http_method : string)
  (deprecated_parameter : option (list string))
  (deprecation_datetime sunset_datetime : option datetime)
  (w : world) : result bool * world :=
  match check_if_already_send config deprecation_url http_method
          deprecated_parameter deprecation_datetime sunset_datetime w with
  | Raise e => (Raise e, w)
  | Ok true => (Ok true, w)
  | Ok false =>
      match send_deprecation_webhook_slack config deprecation_url
              http_method deprecated_parameter deprecation_datetime
              sunset_datetime w with
      | (Raise e, w') => (Raise e, w')
      | (Ok _, w') => (Ok false, w')
      end
  end.

(** The entries of the history file; none when it is absent. *)
Definition history (config : Slack_Configuration) (w : world) : list json :=
  match files w !! file_path config with
  | Some (JArr l) => l
  | _ => []
  end.
End slack.

(** ** jira.py *)

Record JIRA_Configuration := {
  API_URL : string;
  API_TOKEN : string;
  USER_EMAIL : string;
  DEPRECATION_ISSUE_TYPE_KEY : string;
  DEPRECATION_ISSUE_TYPE_ID : string;
  PROJECT_KEY : string;
  PROJECT_ID : string;
  DEPRECATION_URL_FIELD : string;
  DEPRECATION_URL_FIELD_NAME : string;
  DEPRECATION_HTTP_FIELD : string;
  DEPRECATION_HTTP_FIELD_NAME : string;
  SUNSET_HTTP_FIELD : string;
  SUNSET_HTTP_FIELD_NAME : string;
  HTTP_METHOD_FIELD : string;
  HTTP_METHOD_FIELD_NAME : string;
  DEPRECATED_PARAMETER_FIELD : string;
  DEPRECATED_PARAMETER_FIELD_NAME : string;
  BASE64_AUTH : option string
}.

Definition jira_header (config : JIRA_Configuration) : list (string * string) :=
  [ ("Content-Type", "application/json");
    ("Accept", "application/json");
    ("Authorization",
      "Basic " +:+ match BASE64_AUTH config with
                   | Some a => a
                   | None => "None"
                   end) ].

(** The base of the search filter. *)
Definition base_query `{Casing} (config : JIRA_Configuration)
  (deprecation_url http_method : string) : string :=
  "type = " +:+ DEPRECATION_ISSUE_TYPE_KEY config +:+
  " AND project = " +:+ PROJECT_KEY config +:+
  " AND " +:+ dquote +:+ lower (DEPRECATION_URL_FIELD_NAME config) +:+
  "[url field]" +:+ dquote +:+ " = " +:+ dquote +:+ deprecation_url +:+ dquote +:+
  " AND " +:+ dquote +:+ lower (HTTP_METHOD_FIELD_NAME config) +:+
  "[short text]" +:+ dquote +:+ " ~ " +:+ dquote +:+ upper http_method +:+ dquote +:+
  " AND status != Done".

(** The clause that pins a time stamp field to one minute. *)
Definition timestamp_clause `{Casing} (field_name minute : string) : string :=
  " AND " +:+ dquote +:+ lower field_name +:+ "[time stamp]" +:+ dquote +:+
  " >= " +:+ dquote +:+ minute +:+ dquote +:+
  " AND " +:+ dquote +:+ lower field_name +:+ "[time stamp]" +:+ dquote +:+
  " <= " +:+ dquote +:+ minute +:+ dquote.

(** The clause that asks for an empty parameter field. *)
Definition empty_parameter_clause `{Casing} (config : JIRA_Configuration) : string :=
  " AND " +:+ dquote +:+ lower (DEPRECATED_PARAMETER_FIELD_NAME config) +:+
  "[labels]" +:+ dquote +:+ " is EMPTY".

(** [queryString] as it stands when the search is sent; [tz] is the time zone
    of the server. *)
Definition search_filter `{Casing} `{Datetime} (config : JIRA_Configuration)
  (deprecation_url http_method : string)
  (deprecated_parameter : option (list string))
  (deprecation_datetime sunset_datetime : option datetime) (tz : tzinfo)
  : string :=
  base_query config deprecation_url http_method
  +:+ match deprecation_datetime with
      | Some d =>
          timestamp_clause (DEPRECATION_HTTP_FIELD_NAME config)
            (strftime_minute (astimezone d tz))
      | None => EmptyString
      end
  +:+ match sunset_datetime with
      | Some d =>
          timestamp_clause (SUNSET_HTTP_FIELD_NAME config)
            (strftime_minute (astimezone d tz))
      | None => EmptyString
      end
  +:+ match deprecated_parameter with
      | None => empty_parameter_clause config
      | Some _ => EmptyString
      end.

(** [s.endswith(suffix)] *)
Fixpoint ends_with (suffix s : string) : bool :=
  String.eqb suffix s ||
  match s with
  | EmptyString => false
  | String _ s' => ends_with suffix s'
  end.

Fixpoint last_char (s : string) : option ascii :=
  match s with
  | EmptyString => None
  | String c EmptyString => Some c
  | String _ s' => last_char s'
  end.

Section jira.
Context `{Casing} `{Datetime} `{PoolManager}.
(** [json.dumps] *)
Variable dumps : json → string.

(** Code that talks to the remote side and may raise. *)
Definition io (A : Type) : Type := remote → result A * remote.

Definition io_bind {A B} (m : io A) (k : A → io B) : io B :=
  λ n, match m n with
       | (Ok a, n') => k a n'
       | (Raise e, n') => (Raise e, n')
       end.

Definition lift {A} (r : result A) : io A := λ n, (r, n).

Local Notation "x ⇐ m ;; k" := (io_bind m (λ x, k))
  (at level 100, m at next level, right associativity).

(** The loop that adds to the first matching issue every parameter it does
    not hold yet. *)
Fixpoint add_missing_parameters (config : JIRA_Configuration)
  (issue query_deprecated_parameter : json)
  (deprecated_parameter : list string) : io () :=
  match deprecated_parameter with
  | [] => lift (Ok ())
  | param :: rest =>
      present ⇐ lift (py_contains param query_deprecated_parameter);;
      if (present : bool)
      then add_missing_parameters config issue query_deprecated_parameter rest
      else
        id ⇐ lift (py_getitem issue "id");;
        let url := API_URL config +:+ "/3/issue/" +:+ py_str id in
        let payload :=
          dumps (JObj [("update",
                        JObj [(DEPRECATED_PARAMETER_FIELD config,
                               JArr [JObj [("add", JStr param)]])])]) in
        _ ⇐ request (HttpCall "PUT" url [] (jira_header config)
                       (Some payload));;
        add_missing_parameters config issue query_deprecated_parameter rest
  end.

Definition check_if_issue_exists (config : JIRA_Configuration)
  (deprecation_url http_method : string)
  (deprecated_parameter : option (list string))
  (deprecation_datetime sunset_datetime : option datetime) : io bool :=
  let header := jira_header config in
  response ⇐ request (HttpCall "GET" (API_URL config +:+ "/3/serverInfo")
                        [] header None);;
  info ⇐ lift (response_json response);;
  server_datetime_string ⇐ lift (py_getitem info "serverTime");;
  server_datetime ⇐ lift match server_datetime_string with
                         | JStr s => strptime_server s
                         | _ => Raise TypeError
                         end;;
  let queryString :=
    search_filter config deprecation_url http_method deprecated_parameter
      deprecation_datetime sunset_datetime (dt_tzinfo server_datetime) in
  let query := [("jql", queryString); ("fields", "*all")] in
  let url := API_URL config +:+ "/3/search/jql" in
  response ⇐ request (HttpCall "GET" url query header None);;
  response_data ⇐ lift (response_json response);;
  match deprecated_parameter with
  | Some (p :: ps) =>
      issues ⇐ lift (py_getitem response_data "issues");;
      if py_eq issues (JArr []) then lift (Ok false)
      else
        issue ⇐ lift (py_first issues);;
        fields ⇐ lift (py_getitem issue "fields");;
        query_deprecated_parameter ⇐
          lift (py_getitem fields (DEPRECATED_PARAMETER_FIELD config));;
        _ ⇐ add_missing_parameters config issue query_deprecated_parameter
              (p :: ps);;
        lift (Ok true)
  | Some [] | None =>
      issues ⇐ lift (py_getitem response_data "issues");;
      lift (Ok (negb (py_eq issues (JArr []))))
  end.
End jira.

(** ** Shapes of an OpenAPI document *)

(** A declared parameter the detection can read: an object whose
    [deprecated] entry, when there is one, is a boolean, and which gives its
    [name] and its location [in] when it is marked deprecated. *)
Definition is_parameter_descriptor (po : json) : bool :=
  match po with
  | JObj f =>
      match dict_get "deprecated" f with
      | None | Some (JBool false) => true
      | Some (JBool true) =>
          bool_decide (is_Some (dict_get "name" f)) &&
          bool_decide (is_Some (dict_get "in" f))
      | Some _ => false
      end
  | _ => false
  end.

(** An operation object: its [parameters] entry, when there is one, is a
    list of parameter descriptors. *)
Definition is_operation (v : json) : bool :=
  match v with
  | JObj op =>
      match dict_get "parameters" op with
      | None => true
      | Some (JArr params) => forallb is_parameter_descriptor params
      | Some _ => false
      end
  | _ => false
  end.

(** The value stored at [paths[path][method.lower()]] of a document. *)
Definition operation_at `{Casing} (oas : json) (path method : string) : option json :=
  match oas with
  | JObj o =>
      match dict_get "paths" o with
      | Some (JObj ps) =>
          match dict_get path ps with
          | Some (JObj item) => dict_get (lower method) item
          | _ => None
          end
      | _ => None
      end
  | _ => None
  end.

(** A document whose [paths] entry is a mapping, whose entry for [path],
    when there is one, is a mapping, and whose entry for the lowercased
    method under it, when there is one, is an operation object. *)
Definition operation_readable `{Casing} (oas : json) (path method : string) : bool :=
  match oas with
  | JObj o =>
      match dict_get "paths" o with
      | Some (JObj ps) =>
          match dict_get path ps with
          | None => true
          | Some (JObj item) =>
              match dict_get (lower method) item with
              | None => true
              | Some v => is_operation v
              end
          | Some _ => false
          end
      | _ => false
      end
  | _ => false
  end.

(** [path] is no key of the [paths] mapping, or the lowercased method is no
    key of the mapping stored under [path]. *)
Definition operation_absent `{Casing} (oas : json) (path method : string) : Prop :=
  ∃ o ps, oas = JObj o ∧ dict_get "paths" o = Some (JObj ps) ∧
    (dict_get path ps = None ∨
     ∃ item, dict_get path ps = Some (JObj item) ∧
             dict_get (lower method) item = None).

Definition marked_deprecated (po : json) : bool :=
  match po with
  | JObj f =>
      match dict_get "deprecated" f with
      | Some (JBool true) => true
      | _ => false
      end
  | _ => false
  end.

Definition declared_name (po : json) : option string :=
  match po with
  | JObj f =>
      match dict_get "name" f with
      | Some (JStr n) => Some n
      | _ => None
      end
  | _ => None
  end.

Definition declared_location (po : json) : option string :=
  match po with
  | JObj f =>
      match dict_get "in" f with
      | Some (JStr l) => Some l
      | _ => None
      end
  | _ => None
  end.

(** The selection as the specification words it: marked deprecated, named in
    the request, located in the query. *)
Definition selected (requested : list string) (po : json) : bool :=
  marked_deprecated po &&
  match declared_name po with
  | Some n => bool_decide (n ∈ requested)
  | None => false
  end &&
  bool_decide (declared_location po = Some "query").

(** The names of the selected parameters, in the order of declaration. *)
Definition deprecated_subset (requested : list string) (params : list json)
  : list string :=
  omap declared_name (filter (λ po, selected requested po = true) params).

(** ** Conditions on the collaborators of the sinks *)

(** The webhook answers every POST. *)
Definition webhook_answers `{PoolManager} (config : Slack_Configuration)
  : Prop :=
  ∀ body n, ∃ r n',
    request (HttpCall "POST" (webhook_url config) [] [] (Some body)) n
    = (Ok r, n').

(** The history file is absent or holds a list. *)
Definition history_readable `{PoolManager} (config : Slack_Configuration)
  (w : world) : Prop :=
  match files w !! file_path config with
  | None | Some (JArr _) => True
  | Some _ => False
  end.

(** The tracker answers every PUT. *)
Definition updates_answered `{PoolManager} : Prop :=
  ∀ c n, call_verb c = "PUT" → ∃ r n', request c n = (Ok r, n').

(** An issue that gives its [id] and whose parameter field holds a list. *)
Definition issue_readable (config : JIRA_Configuration) (issue : json) : Prop :=
  ∃ id fields labels,
    py_getitem issue "id" = Ok id ∧
    py_getitem issue "fields" = Ok fields ∧
    py_getitem fields (DEPRECATED_PARAMETER_FIELD config) = Ok (JArr labels).

(** ** Concrete collaborators, to run the sinks on examples *)

(** Dates given by their ISO text; the remote side answers every call with
    the same JSON document and keeps the calls it received. *)
Definition text_datetime : Datetime := {|
  datetime := string;
  tzinfo := ();
  isoformat := λ d, d;
  strptime_server := λ s, Ok s;
  dt_tzinfo := λ _, ();
  astimezone := λ d _, d;
  strftime_minute := λ d, d
|}.

Definition echo_remote (answer : json) : PoolManager := {|
  remote := list http_call;
  response := json;
  request := λ c n, (Ok answer, n ++ [c]);
  response_json := λ r, Ok r
|}.

Definition example_oas : json :=
  JObj [("openapi", JStr "3.0.0");
        ("paths", JObj [
           ("/users", JObj [
              ("get", JObj [
                 ("deprecated", JBool true);
                 ("parameters", JArr [
                    JObj [("name", JStr "limit"); ("in", JStr "query");
                          ("deprecated", JBool true)];
                    JObj [("name", JStr "id"); ("in", JStr "path");
                          ("deprecated", JBool true)];
                    JObj [("name", JStr "page"); ("in", JStr "query")]])]);
              ("post", JObj [("parameters", JArr [])]);
              ("delete", JObj [("summary", JStr "remove a user")])])])].

Definition example_slack : Slack_Configuration := {|
  webhook_url := "https://hooks.example/T0";
  attachment_color := "#fca103";
  file_path := "slack_messages.json"
|}.

Definition example_jira : JIRA_Configuration := {|
  API_URL := "https://jira.example/rest/api";
  API_TOKEN := "token";
  USER_EMAIL := "dev@example.org";
  DEPRECATION_ISSUE_TYPE_KEY := "Deprecation";
  DEPRECATION_ISSUE_TYPE_ID := "10001";
  PROJECT_KEY := "API";
  PROJECT_ID := "10000";
  DEPRECATION_URL_FIELD := "customfield_1";
  DEPRECATION_URL_FIELD_NAME := "Deprecation URL";
  DEPRECATION_HTTP_FIELD := "customfield_2";
  DEPRECATION_HTTP_FIELD_NAME := "Deprecation Date";
  SUNSET_HTTP_FIELD := "customfield_3";
  SUNSET_HTTP_FIELD_NAME := "Sunset Date";
  HTTP_METHOD_FIELD := "customfield_4";
  HTTP_METHOD_FIELD_NAME := "HTTP Method";
  DEPRECATED_PARAMETER_FIELD := "customfield_5";
  DEPRECATED_PARAMETER_FIELD_NAME := "Deprecated Parameter";
  BASE64_AUTH := Some "ZGV2QGV4YW1wbGUub3JnOnRva2Vu"
|}.

(** What the example tracker answers to every call: its time, and one open
    issue that holds the parameter limit. *)
Definition example_answer : json :=
  JObj [("serverTime", JStr "2025-01-01T10:00:00.000+0000");
        ("issues", JArr [
           JObj [("id", JStr "10042");
                 ("fields", JObj [("customfield_5", JArr [JStr "limit"])])]])].

(** A stand-in for [json.dumps]. *)
Definition example_dumps : json → string := py_repr.

Definition empty_world (answer : json) : @world (echo_remote answer) :=
  @World (echo_remote answer) ∅ [].

(** ** jira.py: the credential *)

Definition b64_alphabet : string :=
  "ABCDEFGHIJKLMNOPQRSTUVWXYZabcdefghijklmnopqrstuvwxyz0123456789+/".

Definition b64_char (n : nat) : ascii :=
  match String.get n b64_alphabet with
  | Some c => c
  | None => "="%char
  end.

(** [base64.b64encode]: three bytes give four characters of the alphabet; a
    last group of one or two bytes is padded with the equals sign. *)
Fixpoint b64encode (bytes : list nat) : string :=
  match bytes with
  | [] => EmptyString
  | [a] =>
      String (b64_char (a / 4)) (String (b64_char (a mod 4 * 16)) "==")
  | [a; b] =>
      String (b64_char (a / 4))
        (String (b64_char (a mod 4 * 16 + b / 16))
           (String (b64_char (b mod 16 * 4)) "="))
  | a :: b :: c :: rest =>
      String (b64_char (a / 4))
        (String (b64_char (a mod 4 * 16 + b / 16))
           (String (b64_char (b mod 16 * 4 + c / 64))
              (String (b64_char (c mod 64)) (b64encode rest))))
  end.

(** [s.encode("ascii")]: the codes of the characters; a character above 127
    raises UnicodeEncodeError, which is a [ValueError]. *)
Fixpoint encode_ascii (s : string) : result (list nat) :=
  match s with
  | EmptyString => Ok []
  | String c s' =>
      if (nat_of_ascii c <? 128)%nat
      then bytes ← encode_ascii s'; Ok (nat_of_ascii c :: bytes)
      else Raise ValueError
  end.

Definition with_BASE64_AUTH (config : JIRA_Configuration) (auth : option string)
  : JIRA_Configuration := {|
  API_URL := API_URL config;
  API_TOKEN := API_TOKEN config;
  USER_EMAIL := USER_EMAIL config;
  DEPRECATION_ISSUE_TYPE_KEY := DEPRECATION_ISSUE_TYPE_KEY config;
  DEPRECATION_ISSUE_TYPE_ID := DEPRECATION_ISSUE_TYPE_ID config;
  PROJECT_KEY := PROJECT_KEY config;
  PROJECT_ID := PROJECT_ID config;
  DEPRECATION_URL_FIELD := DEPRECATION_URL_FIELD config;
  DEPRECATION_URL_FIELD_NAME := DEPRECATION_URL_FIELD_NAME config;
  DEPRECATION_HTTP_FIELD := DEPRECATION_HTTP_FIELD config;
  DEPRECATION_HTTP_FIELD_NAME := DEPRECATION_HTTP_FIELD_NAME config;
  SUNSET_HTTP_FIELD := SUNSET_HTTP_FIELD config;
  SUNSET_HTTP_FIELD_NAME := SUNSET_HTTP_FIELD_NAME config;
  HTTP_METHOD_FIELD := HTTP_METHOD_FIELD config;
  HTTP_METHOD_FIELD_NAME := HTTP_METHOD_FIELD_NAME config;
  DEPRECATED_PARAMETER_FIELD := DEPRECATED_PARAMETER_FIELD config;
  DEPRECATED_PARAMETER_FIELD_NAME := DEPRECATED_PARAMETER_FIELD_NAME config;
  BASE64_AUTH := auth
|}.

(** [create_base64_auth] sets the field of the configuration it is given and
    returns that configuration; the value returned here is the configuration
    after the assignment. The base64 text is ASCII, so decoding it to a
    string changes nothing. *)
Definition create_base64_auth (config : JIRA_Configuration)
  : result JIRA_Configuration :=
  let auth_str := USER_EMAIL config +:+ ":" +:+ API_TOKEN config in
  bytes ← encode_ascii auth_str;
  Ok (with_BASE64_AUTH config (Some (b64encode bytes))).

(** The inverse of the alphabet, and the decoder of RFC 4648, to say what
    the encoded credential holds. *)
Fixpoint b64_find (c : ascii) (alphabet : string) (i : nat) : option nat :=
  match alphabet with
  | EmptyString => None
  | String c' rest => if Ascii.eqb c c' then Some i else b64_find c rest (S i)
  end.

Definition b64_index (c : ascii) : option nat := b64_find c b64_alphabet 0.

Fixpoint b64decode (s : string) : option (list nat) :=
  match s with
  | EmptyString => Some []
  | String c1 (String c2 (String c3 (String c4 rest))) =>
      s1 ← b64_index c1;
      s2 ← b64_index c2;
      if Ascii.eqb c3 "="
      then if Ascii.eqb c4 "=" && String.eqb rest EmptyString
           then Some [s1 * 4 + s2 / 16]
           else None
      else
        s3 ← b64_index c3;
        if Ascii.eqb c4 "="
        then if String.eqb rest EmptyString
             then Some [s1 * 4 + s2 / 16; s2 mod 16 * 16 + s3 / 4]
             else None
        else
          s4 ← b64_index c4;
          bytes ← b64decode rest;
          Some (s1 * 4 + s2 / 16 :: s2 mod 16 * 16 + s3 / 4
                :: s3 mod 4 * 64 + s4 :: bytes)
  | _ => None
  end.

(** ** jira.py: the creation of an issue *)

(** [d[k] = v]: a key that is there keeps its place and takes the new value,
    a new key goes to the end. *)
Fixpoint dict_set {A} (k : string) (v : A) (o : list (string * A))
  : list (string * A) :=
  match o with
  | [] => [(k, v)]
  | (k', v') :: o' =>
      if String.eqb k k' then (k', v) :: o' else (k', v') :: dict_set k v o'
  end.

(** A dictionary display [{k1: v1, k2: v2, ...}] whose keys are computed: the
    entries are stored from left to right. *)
Definition dict_of {A} (entries : list (string * A)) : list (string * A) :=
  fold_left (λ o kv, dict_set kv.1 kv.2 o) entries [].

Definition issue_summary (deprecation_url : string)
  (deprecated_parameter : option (list string)) : string :=
  let summaryOperation :=
    "The API endpoint " +:+ deprecation_url +:+ " is deprecated." in
  let summaryParameter :=
    "At least one parameter of the API endpoint " +:+ deprecation_url +:+
    " is deprecated." in
  match deprecated_parameter with
  | Some _ => summaryParameter
  | None => summaryOperation
  end.

(** The dictionary that [create_new_jira_issue] hands to [json.dumps]. *)
Definition issue_payload `{Casing} `{Datetime} (config : JIRA_Configuration)
  (deprecation_url http_method : string)
  (deprecated_parameter : option (list string))
  (deprecation_datetime sunset_datetime : option datetime) : json :=
  JObj [("fields", JObj (dict_of [
    (DEPRECATION_URL_FIELD config, JStr deprecation_url);
    (DEPRECATION_HTTP_FIELD config, iso_or_none deprecation_datetime);
    (SUNSET_HTTP_FIELD config, iso_or_none sunset_datetime);
    (HTTP_METHOD_FIELD config, JStr (upper http_method));
    (DEPRECATED_PARAMETER_FIELD config,
      match deprecated_parameter with
      | Some l => JArr (map JStr l)
      | None => JNull
      end);
    ("issuetype", JObj [("name", JStr (DEPRECATION_ISSUE_TYPE_KEY config))]);
    ("project", JObj [("key", JStr (PROJECT_KEY config))]);
    ("summary", JStr (issue_summary deprecation_url deprecated_parameter))]))].

Section jira_create.
Context `{Casing} `{Datetime} `{PoolManager}.
(** [json.dumps] *)
Variable dumps : json → string.

Definition create_new_jira_issue (config : JIRA_Configuration)
  (deprecation_url http_method : string)
  (deprecated_parameter : option (list string))
  (deprecation_datetime sunset_datetime : option datetime) : io () :=
  let header := jira_header config in
  let payload :=
    dumps (issue_payload config deprecation_url http_method
             deprecated_parameter deprecation_datetime sunset_datetime) in
  io_bind (request (HttpCall "POST" (API_URL config +:+ "/3/issue") [] header
                      (Some payload)))
          (λ _, lift (Ok ())).
End jira_create.

(** The call with which [check_if_issue_exists] adds one parameter to an
    issue. *)
Definition update_call (dumps : json → string) (config : JIRA_Configuration)
  (id : json) (param : string) : http_call :=
  HttpCall "PUT" (API_URL config +:+ "/3/issue/" +:+ py_str id) []
    (jira_header config)
    (Some (dumps (JObj [("update",
                         JObj [(DEPRECATED_PARAMETER_FIELD config,
                                JArr [JObj [("add", JStr param)]])])]))).

(** ** A remote side that keeps the calls it receives *)

(** The HTTP client [P], with the list of the calls made so far beside the
    state of its remote side. *)
Definition recording (P : PoolManager) : PoolManager := {|
  remote := (@remote P * list http_call)%type;
  response := @response P;
  request := λ c n,
    let '(r, n') := @request P c n.1 in (r, (n', n.2 ++ [c]));
  response_json := @response_json P
|}.

(** ** deprecation.py: the configuration registry *)

(** The module globals. The list of header names is a list object that the
    caller may hold too, so the registry keeps a reference to it and the list
    objects live in [lists]; the configurations are never changed by the
    registry and are kept by value. *)
Record registry := Registry {
  DEPRECATION_DETECTION_ENABLED : bool;
  CUSTOM_HTTP_DEPRECATION_HEADER : nat;
  LOGGING_DEPRECATION_CONFIGURATION : option Logging_Configuration;
  SLACK_DEPRECATION_CONFIGURATION : option Slack_Configuration;
  JIRA_DEPRECATION_CONFIGURATION : option JIRA_Configuration;
  lists : gmap nat (list string)
}.

(** The registry when the module is loaded: detection off, no sink, and an
    empty list of header names, the list object 0. *)
Definition initial_registry : registry :=
  Registry false 0 None None None {[ 0 := [] ]}.

Definition set_deprecation_notification
  (logging : option Logging_Configuration) (slack : option Slack_Configuration)
  (jira : option JIRA_Configuration) (st : registry) : registry :=
  Registry (DEPRECATION_DETECTION_ENABLED st)
    (CUSTOM_HTTP_DEPRECATION_HEADER st)
    (match logging with
     | Some c => Some c
     | None => LOGGING_DEPRECATION_CONFIGURATION st
     end)
    (match slack with
     | Some c => Some c
     | None => SLACK_DEPRECATION_CONFIGURATION st
     end)
    (match jira with
     | Some c => Some c
     | None => JIRA_DEPRECATION_CONFIGURATION st
     end)
    (lists st).

(** The global is bound to the list object of the caller, not to a copy. *)
Definition set_deprecation_http_header (http_header : nat) (st : registry)
  : registry :=
  Registry (DEPRECATION_DETECTION_ENABLED st) http_header
    (LOGGING_DEPRECATION_CONFIGURATION st)
    (SLACK_DEPRECATION_CONFIGURATION st)
    (JIRA_DEPRECATION_CONFIGURATION st)
    (lists st).

(** [list.extend] on the list object the global is bound to. *)
Definition add_deprecation_http_header (http_header : nat) (st : registry)
  : registry :=
  let target := CUSTOM_HTTP_DEPRECATION_HEADER st in
  Registry (DEPRECATION_DETECTION_ENABLED st) target
    (LOGGING_DEPRECATION_CONFIGURATION st)
    (SLACK_DEPRECATION_CONFIGURATION st)
    (JIRA_DEPRECATION_CONFIGURATION st)
    (<[target := default [] (lists st !! target)
                 ++ default [] (lists st !! http_header)]> (lists st)).

Definition deprecation_detection (enabled : bool) (st : registry) : registry :=
  Registry enabled (CUSTOM_HTTP_DEPRECATION_HEADER st)
    (LOGGING_DEPRECATION_CONFIGURATION st)
    (SLACK_DEPRECATION_CONFIGURATION st)
    (JIRA_DEPRECATION_CONFIGURATION st)
    (lists st).

Definition get_deprecation_detection (st : registry) : bool :=
  DEPRECATION_DETECTION_ENABLED st.

Definition get_deprecation_http_header (st : registry) : nat :=
  CUSTOM_HTTP_DEPRECATION_HEADER st.

Definition get_logging_configuration (st : registry)
  : option Logging_Configuration := LOGGING_DEPRECATION_CONFIGURATION st.

Definition get_slack_configuration (st : registry)
  : option Slack_Configuration := SLACK_DEPRECATION_CONFIGURATION st.

Definition get_jira_configuration (st : registry)
  : option JIRA_Configuration := JIRA_DEPRECATION_CONFIGURATION st.

(** One call of the functions that change the registry. *)
Inductive registry_call :=
| CallSetNotification (logging : option Logging_Configuration)
    (slack : option Slack_Configuration) (jira : option JIRA_Configuration)
| CallSetHeader (http_header : nat)
| CallAddHeader (http_header : nat)
| CallDetection (enabled : bool).

Definition run_call (c : registry_call) (st : registry) : registry :=
  match c with
  | CallSetNotification logging slack jira =>
      set_deprecation_notification logging slack jira st
  | CallSetHeader h => set_deprecation_http_header h st
  | CallAddHeader h => add_deprecation_http_header h st
  | CallDetection b => deprecation_detection b st
  end.

Definition run_calls (calls : list registry_call) (st : registry) : registry :=
  fold_left (λ st c, run_call c st) calls st.

(** The header names the detection looks at: the content of the list the
    global is bound to. *)
Definition header_names (st : registry) : list string :=
  default [] (lists st !! get_deprecation_http_header st).

(** ** Shapes of declared parameters, by truth value *)

(** The [deprecated] entry of a declared parameter counts as true: what the
    loop of [are_parameter_deprecated] tests, whatever the type of the
    entry. *)
Definition flag_truthy (po : json) : bool :=
  match po with
  | JObj f =>
      match dict_get "deprecated" f with
      | Some v => truthy v
      | None => false
      end
  | _ => false
  end.

(** An object that gives its [name] and its location [in]. *)
Definition has_name_and_location (po : json) : bool :=
  match po with
  | JObj f =>
      bool_decide (is_Some (dict_get "name" f)) &&
      bool_decide (is_Some (dict_get "in" f))
  | _ => false
  end.

Definition selected_truthy (requested : list string) (po : json) : bool :=
  flag_truthy po &&
  match declared_name po with
  | Some n => bool_decide (n ∈ requested)
  | None => false
  end &&
  bool_decide (declared_location po = Some "query").

(** A document whose declared parameters carry [deprecated] entries that
    are not booleans. *)
Definition example_loose_oas : json :=
  JObj [("paths", JObj [("/a", JObj [("get", JObj [("parameters", JArr [
     JObj [("name", JStr "x"); ("in", JStr "query");
           ("deprecated", JStr "false")];
     JObj [("name", JStr "y"); ("in", JStr "query");
           ("deprecated", JNum 0)]])])])])].

(** The body that [send_deprecation_webhook_slack] posts to the webhook. *)
Definition slack_payload `{Datetime} (dumps : json → string)
  (config : Slack_Configuration) (deprecation_url http_method : string)
  (deprecated_parameter : option (list string))
  (deprecation_datetime sunset_datetime : option datetime) : string :=
  dumps (JObj [("attachments",
                JArr [JObj [("color", JStr (attachment_color config));
                            ("blocks",
                             JArr (slack_template deprecation_url http_method
                                     deprecated_parameter deprecation_datetime
                                     sunset_datetime))]])]).

(** The parameters as the Slack history sees them: none for an absent or an
    empty list. *)
Definition parameters_of (deprecated_parameter : option (list string))
  : list string := default [] deprecated_parameter.

(** The codes of the characters of a string, and whether all are ASCII. *)
Definition str_codes (s : string) : list nat :=
  map nat_of_ascii (list_ascii_of_string s).

Definition is_ascii (s : string) : bool :=
  forallb (λ c, (nat_of_ascii c <? 128)%nat) (list_ascii_of_string s).

(** The keys of the fields of a new issue, in the order of the display. *)
Definition issue_field_keys (config : JIRA_Configuration) : list string :=
  [ DEPRECATION_URL_FIELD config; DEPRECATION_HTTP_FIELD config;
    SUNSET_HTTP_FIELD config; HTTP_METHOD_FIELD config;
    DEPRECATED_PARAMETER_FIELD config; "issuetype"; "project"; "summary" ].

(** The two calls with which [check_if_issue_exists] starts. *)
Definition server_info_call (config : JIRA_Configuration) : http_call :=
  HttpCall "GET" (API_URL config +:+ "/3/serverInfo") [] (jira_header config)
    None.

Definition search_call (config : JIRA_Configuration) (queryString : string)
  : http_call :=
  HttpCall "GET" (API_URL config +:+ "/3/search/jql")
    [("jql", queryString); ("fields", "*all")] (jira_header config) None.

(** A tracker whose one open issue has null in its parameter field. *)
Definition example_null_answer : json :=
  JObj [("serverTime", JStr "2025-01-01T10:00:00.000+0000");
        ("issues", JArr [
           JObj [("id", JStr "10042");
                 ("fields", JObj [("customfield_5", JNull)])]])].

(** A transport that raises on every call. *)
Definition failing_remote : PoolManager := {|
  remote := ();
  response := json;
  request := λ _ n, (Raise TransportError, n);
  response_json := λ r, Ok r
|}.

(** A tracker that answers its first call and raises on every later one;
    its state counts the calls. *)
Definition flaky_remote : PoolManager := {|
  remote := nat;
  response := json;
  request := λ _ n,
    (if (n <? 1)%nat then Ok JNull else Raise TransportError, S n);
  response_json := λ r, Ok r
|}.

(** Sending the calls of a list one after the other, up to and including
    the first that raises: the result, the remote side afterwards, and the
    calls that were sent. *)
Fixpoint send_until_failure `{PoolManager} (calls : list http_call)
  (n : remote) : result () * (remote * list http_call) :=
  match calls with
  | [] => (Ok (), (n, []))
  | c :: rest =>
      match request c n with
      | (Ok _, n1) =>
          let '(r, (n', sent)) := send_until_failure rest n1 in
          (r, (n', c :: sent))
      | (Raise e, n1) => (Raise e, (n1, [c]))
      end
  end.

(** * Properties *)

(** ** Equality of values *)

Lemma py_eq_str s t : py_eq (JStr s) (JStr t) = bool_decide (s = t).
Proof.
  simpl. destruct (String.eqb_spec s t) as [E|E].
  - by rewrite bool_decide_eq_true_2.
  - by rewrite bool_decide_eq_false_2.
Qed.

Lemma py_eq_str_l s v : py_eq (JStr s) v = true ↔ v = JStr s.
Proof.
  destruct v; simpl; try (split; [done|congruence]).
  rewrite String.eqb_eq. split; congruence.
Qed.

Lemma py_eq_strs l : py_eq (JArr (map JStr l)) (JArr (map JStr l)) = true.
Proof.
  simpl. induction l as [|x l IH]; simpl; [done|].
  by rewrite String.eqb_refl, IH.
Qed.

Lemma in_str_list_spec v l : in_str_list v l = true ↔ ∃ n, v = JStr n ∧ n ∈ l.
Proof.
  unfold in_str_list. rewrite existsb_exists. split.
  - intros (n & Hin & E). apply py_eq_str_l in E. exists n.
    split; [done|]. by apply list_elem_of_In.
  - intros (n & -> & Hin). exists n. split; [by apply list_elem_of_In|].
    by apply py_eq_str_l.
Qed.

(** ** The lookup of an operation *)

Lemma dict_get_contains {A} k (o : list (string * A)) v :
  dict_get k o = Some v → bool_decide (is_Some (dict_get k o)) = true.
Proof. intros ->. by apply bool_decide_eq_true_2. Qed.

Lemma find_operation_present `{Casing} oas path method v :
  operation_at oas path method = Some v →
  find_operation oas path method = Ok v.
Proof.
  unfold operation_at, find_operation.
  destruct oas as [| | | | |o]; try done. simpl.
  destruct (dict_get "paths" o) as [[| | | | |ps]|] eqn:Hps; try done. simpl.
  destruct (dict_get path ps) as [[| | | | |item]|] eqn:Hitem; try done.
  intros Hop. rewrite bool_decide_eq_true_2 by done. simpl.
  rewrite bool_decide_eq_true_2 by (by rewrite Hop). simpl. by rewrite Hop.
Qed.

Lemma operation_at_case `{Casing} m m' oas path :
  lower m = lower m' → operation_at oas path m = operation_at oas path m'.
Proof. intros E. unfold operation_at. by rewrite E. Qed.

(** Two spellings that agree in lower case are looked up alike; only the
    message of the method that is not found prints each spelling, in upper
    case. *)
Lemma find_operation_case `{Casing} m m' oas path :
  lower m = lower m' →
  find_operation oas path m = find_operation oas path m' ∨
  (find_operation oas path m = Raise (method_not_found path m) ∧
   find_operation oas path m' = Raise (method_not_found path m')).
Proof.
  intros E. unfold find_operation. rewrite E.
  destruct (py_getitem oas "paths") as [paths|]; cbn; [|by left].
  destruct (py_contains path paths) as [[]|]; cbn; try (by left).
  destruct (py_getitem paths path) as [item|]; cbn; [|by left].
  destruct (py_contains (lower m') item) as [[]|]; cbn;
    [by left|by right|by left].
Qed.

Lemma is_operation_deprecated_present `{Casing} oas path method op :
  operation_at oas path method = Some (JObj op) →
  is_operation_deprecated oas path method
  = Ok (match dict_get "deprecated" op with
        | Some flag => flag
        | None => JBool false
        end).
Proof.
  intros Hop. unfold is_operation_deprecated.
  rewrite (find_operation_present _ _ _ _ Hop). simpl.
  by destruct (dict_get "deprecated" op) as [flag|].
Qed.

(** C1. When [path] is a key of the [paths] mapping of the document and the
    lowercased method is a key under it, bound to an operation object,
    [is_operation_deprecated] returns the value stored under the key
    [deprecated] of that operation, and [False] when the operation has no such
    key. The method may be spelled in any letter case: every [method'] with
    the same lowercase spelling gives the same answer. *)
Theorem is_operation_deprecated_stored `{Casing} oas path method method' op :
  operation_at oas path method = Some (JObj op) →
  lower method' = lower method →
  is_operation_deprecated oas path method'
  = Ok (match dict_get "deprecated" op with
        | Some flag => flag
        | None => JBool false
        end).
Proof.
  intros Hop Hcase.
  rewrite <-(operation_at_case method' method oas path Hcase) in Hop.
  by apply is_operation_deprecated_present.
Qed.

Section is_operation_deprecated_stored_witness_example.
#[local] Existing Instance ascii_casing.

Lemma is_operation_deprecated_stored_witness :
  is_operation_deprecated example_oas "/users" "GET" = Ok (JBool true) ∧
  is_operation_deprecated example_oas "/users" "get" = Ok (JBool true) ∧
  is_operation_deprecated example_oas "/users" "Post" = Ok (JBool false).
Proof.
  split; [|split].
  - apply (@is_operation_deprecated_stored ascii_casing example_oas "/users" "get" "GET"
             [("deprecated", JBool true);
              ("parameters", JArr [
                 JObj [("name", JStr "limit"); ("in", JStr "query");
                       ("deprecated", JBool true)];
                 JObj [("name", JStr "id"); ("in", JStr "path");
                       ("deprecated", JBool true)];
                 JObj [("name", JStr "page"); ("in", JStr "query")]])]);
      reflexivity.
  - reflexivity.
  - reflexivity.
Defined.
End is_operation_deprecated_stored_witness_example.

(** ** The scan of the declared parameters *)

Lemma parameter_flagged_selected requested po :
  is_parameter_descriptor po = true →
  parameter_flagged requested po = Ok (selected requested po) ∧
  (selected requested po = true →
   ∃ n, declared_name po = Some n ∧ py_getitem po "name" = Ok (JStr n)).
Proof.
  destruct po as [| | | | |f]; try done.
  unfold is_parameter_descriptor, parameter_flagged, selected,
    marked_deprecated, declared_name, declared_location. simpl.
  destruct (dict_get "deprecated" f) as [[| [] | | | |]|] eqn:Hd; try done; simpl.
  intros [[nv Hn]%bool_decide_eq_true_1 [loc Hl]%bool_decide_eq_true_1]%andb_prop.
  rewrite Hn, Hl. simpl.
  destruct (in_str_list nv requested) eqn:Hin; simpl.
  - apply in_str_list_spec in Hin as (n & -> & Hin).
    rewrite (bool_decide_eq_true_2 _ Hin). simpl. split.
    + f_equal. destruct loc; simpl; try done.
      destruct (String.eqb_spec s "query") as [->|Hne].
      * by rewrite bool_decide_eq_true_2.
      * rewrite bool_decide_eq_false_2; [done|congruence].
    + eauto.
  - assert (match match nv with JStr n => Some n | _ => None end with
            | Some n => bool_decide (n ∈ requested)
            | None => false
            end = false) as ->; [|done].
    destruct nv as [| | |n| |]; try done.
    apply bool_decide_eq_false_2. intros Hn'.
    assert (in_str_list (JStr n) requested = true) as E; [|congruence].
    apply in_str_list_spec. eauto.
Qed.

Lemma scan_parameters_subset requested params acc :
  forallb is_parameter_descriptor params = true →
  scan_parameters requested params acc
  = Ok (acc ++ map JStr (deprecated_subset requested params)).
Proof.
  revert acc. induction params as [|po params IH]; intros acc Hwf; simpl.
  { by rewrite app_nil_r. }
  apply andb_prop in Hwf as [Hpo Hwf].
  destruct (parameter_flagged_selected requested po Hpo) as [-> Hname].
  unfold deprecated_subset. simpl.
  destruct (selected requested po) eqn:Hsel.
  - destruct (Hname eq_refl) as (n & Hdecl & ->). simpl.
    rewrite IH by done. rewrite filter_cons_True by done. simpl.
    rewrite Hdecl. simpl. by rewrite <-app_assoc.
  - rewrite IH by done. rewrite filter_cons_False; [done|]. congruence.
Qed.

Lemma py_eq_empty_list (l : list json) :
  py_eq (JArr l) (JArr []) = bool_decide (l = []).
Proof. by destruct l. Qed.

(** C2. For an operation that exists in the document and carries a list of
    declared parameters, [are_parameter_deprecated] returns the pair [(b, l)]
    where [l] holds the names of the declared parameters that are marked
    deprecated, named in the request and located in the query, in the order
    of their declaration, and [b] says whether [l] is non-empty. Every name of
    [l] is requested and is the name of a deprecated query parameter, so a
    deprecated parameter declared in a header or in the path adds nothing. *)
Theorem are_parameter_deprecated_subset `{Casing} oas path method requested op
  params :
  operation_at oas path method = Some (JObj op) →
  dict_get "parameters" op = Some (JArr params) →
  forallb is_parameter_descriptor params = true →
  let l := deprecated_subset requested params in
  are_parameter_deprecated oas path method requested
  = Ok (bool_decide (l ≠ []), map JStr l) ∧
  l `sublist_of` omap declared_name params ∧
  ∀ n, n ∈ l →
    n ∈ requested ∧
    ∃ po, po ∈ params ∧ declared_name po = Some n ∧
          marked_deprecated po = true ∧
          declared_location po = Some "query".
Proof.
  intros Hop Hparams Hwf l. split; [|split].
  - unfold are_parameter_deprecated.
    rewrite (find_operation_present _ _ _ _ Hop). simpl.
    rewrite Hparams. simpl.
    rewrite (scan_parameters_subset requested params [] Hwf). simpl.
    fold l. do 2 f_equal.
    destruct l; by simpl.
  - subst l. unfold deprecated_subset. clear.
    induction params as [|po params IH]; [done|].
    rewrite filter_cons. destruct (decide (selected requested po = true)) as [Hsel|Hsel].
    + simpl. destruct (declared_name po); [by apply sublist_skip|done].
    + simpl. destruct (declared_name po); [by apply sublist_cons|done].
  - intros n Hn. subst l. unfold deprecated_subset in Hn.
    apply list_elem_of_omap in Hn as (po & Hpo & Hname).
    apply list_elem_of_filter in Hpo as [Hsel Hpo].
    unfold selected in Hsel. rewrite Hname in Hsel.
    apply andb_prop in Hsel as [[Hdep Hreq]%andb_prop Hloc].
    apply bool_decide_eq_true_1 in Hreq, Hloc. eauto 10.
Qed.

Section are_parameter_deprecated_subset_witness_example.
#[local] Existing Instance ascii_casing.

Lemma are_parameter_deprecated_subset_witness :
  are_parameter_deprecated example_oas "/users" "GET" ["page"; "id"; "limit"]
  = Ok (true, [JStr "limit"]).
Proof.
  exact (proj1 (@are_parameter_deprecated_subset ascii_casing example_oas "/users" "GET"
                  ["page"; "id"; "limit"]
                  [("deprecated", JBool true);
                   ("parameters", JArr [
                      JObj [("name", JStr "limit"); ("in", JStr "query");
                            ("deprecated", JBool true)];
                      JObj [("name", JStr "id"); ("in", JStr "path");
                            ("deprecated", JBool true)];
                      JObj [("name", JStr "page"); ("in", JStr "query")]])]
                  [JObj [("name", JStr "limit"); ("in", JStr "query");
                         ("deprecated", JBool true)];
                   JObj [("name", JStr "id"); ("in", JStr "path");
                         ("deprecated", JBool true)];
                   JObj [("name", JStr "page"); ("in", JStr "query")]]
                  eq_refl eq_refl eq_refl)).
Defined.
End are_parameter_deprecated_subset_witness_example.

(** ** The errors of the detection *)

Lemma find_operation_readable `{Casing} oas path method :
  operation_readable oas path method = true →
  (operation_absent oas path method ∧
   operation_at oas path method = None ∧
   ∃ msg, find_operation oas path method = Raise (KeyError msg))
  ∨ ∃ op, operation_at oas path method = Some (JObj op) ∧
          is_operation (JObj op) = true ∧
          ¬ operation_absent oas path method.
Proof.
  unfold operation_readable, operation_absent, operation_at, find_operation.
  destruct oas as [| | | | |o]; try done.
  destruct (dict_get "paths" o) as [[| | | | |ps]|] eqn:Hps; try done.
  cbn [py_getitem]. rewrite Hps. cbn [mbind result_bind py_contains].
  destruct (dict_get path ps) as [[| | | | |item]|] eqn:Hitem; try done.
  - rewrite bool_decide_eq_true_2 by done.
    cbn [negb py_getitem]. rewrite Hitem. cbn [mbind result_bind py_contains].
    destruct (dict_get (lower method) item) as [v|] eqn:Hop; intros Hwf.
    + right. destruct v as [| | | | |op]; try done. exists op.
      split; [done|]. split; [done|].
      intros (o' & ps' & [= <-] & Hps' & Habs). rewrite Hps in Hps'.
      injection Hps' as <-. destruct Habs as [?|(item' & ? & ?)]; congruence.
    + left. split; [exists o, ps; eauto 10|]. split; [done|].
      rewrite bool_decide_eq_false_2 by (by intros [? ?]).
      unfold method_not_found. eauto.
  - intros _. left. split; [exists o, ps; eauto|]. split; [done|].
    rewrite bool_decide_eq_false_2 by (by intros [? ?]).
    unfold path_not_found. eauto.
Qed.

Lemma are_parameter_deprecated_present `{Casing} oas path method requested op :
  operation_at oas path method = Some (JObj op) →
  is_operation (JObj op) = true →
  are_parameter_deprecated oas path method requested
  = match dict_get "parameters" op with
    | Some (JArr params) =>
        Ok (bool_decide (deprecated_subset requested params ≠ []),
            map JStr (deprecated_subset requested params))
    | _ => Raise (parameters_not_found path method)
    end.
Proof.
  intros Hop Hwf. simpl in Hwf.
  destruct (dict_get "parameters" op) as [[| | | |params|]|] eqn:Hparams; try done.
  - unfold are_parameter_deprecated.
    rewrite (find_operation_present _ _ _ _ Hop). simpl.
    rewrite Hparams. simpl.
    rewrite (scan_parameters_subset requested params [] Hwf). simpl.
    do 2 f_equal. by destruct (deprecated_subset requested params).
  - unfold are_parameter_deprecated.
    rewrite (find_operation_present _ _ _ _ Hop). simpl. by rewrite Hparams.
Qed.

(** C3. On a document whose [paths] entry is a mapping that binds [path],
    if at all, to a mapping, and the lowercased method under it, if at all,
    to an operation object: both detection functions
    raise [KeyError] (the specification's NotFoundError) exactly when the path
    or the lowercased method is absent; [are_parameter_deprecated] raises it
    moreover exactly when the operation has no [parameters] key; and an empty
    [parameters] list is no error and gives [(False, [])]. *)
Theorem detection_raises_exactly `{Casing} oas path method requested :
  operation_readable oas path method = true →
  (raises_KeyError (is_operation_deprecated oas path method)
   ↔ operation_absent oas path method) ∧
  (raises_KeyError (are_parameter_deprecated oas path method requested)
   ↔ operation_absent oas path method ∨
     ∃ op, operation_at oas path method = Some (JObj op) ∧
           dict_get "parameters" op = None) ∧
  (∀ op, operation_at oas path method = Some (JObj op) →
         dict_get "parameters" op = Some (JArr []) →
         are_parameter_deprecated oas path method requested = Ok (false, [])).
Proof.
  intros Hwf.
  assert (operation_absent oas path method ∧
          raises_KeyError (is_operation_deprecated oas path method) ∧
          raises_KeyError (are_parameter_deprecated oas path method requested) ∧
          operation_at oas path method = None
          ∨ ∃ op, operation_at oas path method = Some (JObj op) ∧
                  is_operation (JObj op) = true ∧
                  ¬ operation_absent oas path method) as Hcases.
  { destruct (find_operation_readable oas path method Hwf)
      as [(Habs & Hnone & msg & Hfind)|?]; [left|by right].
    unfold is_operation_deprecated, are_parameter_deprecated.
    by rewrite Hfind. }
  split; [|split].
  - destruct Hcases as [(? & ? & ? & ?)|(op & Hop & Hwfop & Hpre)]; [done|].
    split; [|done].
    by rewrite (is_operation_deprecated_present _ _ _ _ Hop).
  - destruct Hcases as [(? & ? & ? & ?)|(op & Hop & Hwfop & Hpre)]; [tauto|].
    rewrite (are_parameter_deprecated_present _ _ _ _ _ Hop Hwfop).
    split.
    + intros Hr. right. exists op. split; [done|]. simpl in Hwfop.
      by destruct (dict_get "parameters" op) as [[| | | | |]|].
    + intros [?|(op' & Hop' & Hnone)]; [done|].
      rewrite Hop in Hop'. injection Hop' as <-. by rewrite Hnone.
  - intros op Hop Hparams. unfold are_parameter_deprecated.
    rewrite (find_operation_present _ _ _ _ Hop). simpl. by rewrite Hparams.
Qed.

Section detection_raises_exactly_witness_example.
#[local] Existing Instance ascii_casing.

Lemma detection_raises_exactly_witness :
  operation_readable example_oas "/users" "PUT" = true ∧
  raises_KeyError (is_operation_deprecated example_oas "/users" "PUT") ∧
  raises_KeyError
    (are_parameter_deprecated example_oas "/users" "DELETE" ["limit"]) ∧
  are_parameter_deprecated example_oas "/users" "POST" ["limit"]
  = Ok (false, []).
Proof.
  split; [reflexivity|]. split; [|split].
  - apply (proj1 (@detection_raises_exactly ascii_casing example_oas "/users" "PUT" []
                    eq_refl)).
    eexists _, _. split; [reflexivity|]. split; [reflexivity|].
    right. eexists. split; reflexivity.
  - apply (proj1 (proj2 (@detection_raises_exactly ascii_casing example_oas "/users" "DELETE"
                           ["limit"] eq_refl))).
    right. eexists. split; reflexivity.
  - apply (proj2 (proj2 (@detection_raises_exactly ascii_casing example_oas "/users" "POST"
                           ["limit"] eq_refl))
             [("parameters", JArr [])]); reflexivity.
Defined.
End detection_raises_exactly_witness_example.

(** ** The log sink *)

(** C10. With an empty list of deprecated parameters [create_log] emits the
    message it emits when the list is absent, and that message holds the
    token None in the position of the deprecated parameters. *)
Theorem create_log_empty_parameters `{Datetime} config url method dep sun
  loggers :
  create_log config url method (Some []) dep sun loggers
  = create_log config url method None dep sun loggers ∧
  (create_log config url method (Some []) dep sun loggers).2.2
  = "Deprecation Alert: URL=" +:+ url +:+ ", " +:+
    "HTTP Method=" +:+ method +:+ ", " +:+
    "Deprecated Parameters=" +:+ "None" +:+ ", " +:+
    "Deprecation Date=" +:+
      match dep with Some d => isoformat d | None => "None" end +:+ ", " +:+
    "Sunset Date=" +:+
      match sun with Some d => isoformat d | None => "None" end.
Proof. unfold create_log. by destruct (logger config). Qed.

(** ** The Slack sink *)

Lemma sorted_permutation (p1 p2 : list string) :
  p1 ≡ₚ p2 → sorted p1 = sorted p2.
Proof.
  intros Hperm. unfold sorted.
  apply (StronglySorted_unique String.le).
  - apply (StronglySorted_merge_sort _).
  - apply (StronglySorted_merge_sort _).
  - by rewrite !merge_sort_Permutation.
Qed.

Section slack_properties.
Context `{Datetime} `{PoolManager}.
Variable dumps : json → string.
Variable config : Slack_Configuration.

Lemma new_message_permutation url method p1 p2 dep sun :
  p1 ≡ₚ p2 →
  new_message url method (Some p1) dep sun
  = new_message url method (Some p2) dep sun.
Proof.
  intros Hperm. unfold new_message.
  destruct p1 as [|x1 p1], p2 as [|x2 p2]; try done.
  - by apply Permutation_nil_cons in Hperm.
  - symmetry in Hperm. by apply Permutation_nil_cons in Hperm.
  - by rewrite (sorted_permutation _ _ Hperm).
Qed.

Lemma new_message_eq_refl url method params dep sun :
  py_eq (new_message url method params dep sun)
        (new_message url method params dep sun) = true.
Proof.
  unfold new_message. cbn -[sorted]. rewrite !String.eqb_refl. cbn -[sorted].
  assert (∀ v, (v = JNull ∨ ∃ l, v = JArr (map JStr l)) → py_eq v v = true)
    as Hparams.
  { intros v [->|[l ->]]; [done|apply py_eq_strs]. }
  assert (∀ d, py_eq (iso_or_none d) (iso_or_none d) = true) as Hdate.
  { intros [d|]; simpl; [apply String.eqb_refl|done]. }
  rewrite !Hdate, Hparams; [done|].
  destruct params as [[|p ps]|]; eauto.
Qed.

(** Two messages that differ in the method are not equal. *)
Lemma new_message_method_ne url m m' params dep sun :
  m' ≠ m →
  py_eq (new_message url m' params dep sun)
        (new_message url m params dep sun) = false.
Proof.
  intros Hne. unfold new_message. cbn -[sorted].
  apply String.eqb_neq in Hne. rewrite Hne.
  by rewrite andb_false_r.
Qed.

Lemma check_readable url method params dep sun w :
  history_readable config w →
  check_if_already_send config url method params dep sun w
  = Ok (existsb (py_eq (new_message url method params dep sun))
          (history config w)).
Proof.
  unfold history_readable, check_if_already_send, history.
  by destruct (files w !! file_path config) as [[| | | | |]|].
Qed.

Lemma send_readable url method params dep sun w :
  webhook_answers config →
  history_readable config w →
  ∃ w', send_deprecation_webhook_slack dumps config url method params dep
          sun w = (Ok (), w') ∧
        history_readable config w' ∧
        history config w'
        = history config w ++ [new_message url method params dep sun].
Proof.
  intros Hnet Hfile. unfold send_deprecation_webhook_slack.
  match goal with
  | |- context [request (HttpCall _ _ _ _ (Some ?body)) ?n] =>
      destruct (Hnet body n) as (r & n' & ->)
  end.
  unfold history_readable, history in *.
  destruct (files w !! file_path config) as [[| | | | |l]|]; try done.
  - eexists. split; [done|]. simpl. by rewrite lookup_insert_eq.
  - eexists. split; [done|]. simpl. by rewrite lookup_insert_eq.
Qed.
Lemma check_after_send url method params dep sun w w' :
  history_readable config w' →
  history config w' = history config w ++ [new_message url method params dep sun] →
  check_if_already_send config url method params dep sun w' = Ok true.
Proof.
  intros Hfile Hhist. rewrite check_readable by done. f_equal.
  rewrite Hhist, existsb_app. cbn [existsb].
  by rewrite new_message_eq_refl, !orb_true_r.
Qed.

(** C4. The order of the parameters does not matter to the Slack history,
    and an empty list of parameters is the same as none: once the event is
    sent with a list [p1], the check finds it for every reordering [p2] of
    [p1]; once it is sent with the empty list, the check finds it without
    parameters, and the other way round. *)
Theorem slack_parameters_order_independent url method dep sun w :
  webhook_answers config →
  history_readable config w →
  (∀ p1 p2, p1 ≡ₚ p2 →
     ∃ w', send_deprecation_webhook_slack dumps config url method (Some p1)
             dep sun w = (Ok (), w') ∧
           check_if_already_send config url method (Some p2) dep sun w'
           = Ok true) ∧
  (∃ w', send_deprecation_webhook_slack dumps config url method (Some [])
           dep sun w = (Ok (), w') ∧
         check_if_already_send config url method None dep sun w' = Ok true) ∧
  (∃ w', send_deprecation_webhook_slack dumps config url method None
           dep sun w = (Ok (), w') ∧
         check_if_already_send config url method (Some []) dep sun w'
         = Ok true).
Proof.
  intros Hnet Hfile. split; [|split].
  - intros p1 p2 Hperm.
    destruct (send_readable url method (Some p1) dep sun w Hnet Hfile)
      as (w' & Hsend & Hfile' & Hhist).
    exists w'. split; [done|].
    rewrite (new_message_permutation _ _ _ _ _ _ Hperm) in Hhist.
    by apply (check_after_send _ _ _ _ _ w).
  - destruct (send_readable url method (Some []) dep sun w Hnet Hfile)
      as (w' & Hsend & Hfile' & Hhist).
    exists w'. split; [done|]. by apply (check_after_send _ _ _ _ _ w).
  - destruct (send_readable url method None dep sun w Hnet Hfile)
      as (w' & Hsend & Hfile' & Hhist).
    exists w'. split; [done|]. by apply (check_after_send _ _ _ _ _ w).
Qed.

(** C5, as the code has it. The method of a record is compared as it was
    passed: after the event is sent with a method [m], the check with the
    same [m] finds it, and the check with any other spelling [m'] answers
    what it answered before the send. *)
Theorem slack_method_compared_exactly url m params dep sun w :
  webhook_answers config →
  history_readable config w →
  ∃ w', send_deprecation_webhook_slack dumps config url m params dep sun w
        = (Ok (), w') ∧
        check_if_already_send config url m params dep sun w' = Ok true ∧
        ∀ m', m' ≠ m →
          check_if_already_send config url m' params dep sun w'
          = check_if_already_send config url m' params dep sun w.
Proof.
  intros Hnet Hfile.
  destruct (send_readable url m params dep sun w Hnet Hfile)
    as (w' & Hsend & Hfile' & Hhist).
  exists w'. split; [done|]. split.
  - by apply (check_after_send _ _ _ _ _ w).
  - intros m' Hne. rewrite !check_readable by done. f_equal.
    rewrite Hhist, existsb_app. cbn [existsb].
    by rewrite new_message_method_ne, !orb_false_r.
Qed.

(** C6. While the history file does not exist the check answers [False],
    whatever the event; and once the event is sent, the check with the same
    event answers [True]. *)
Theorem slack_missing_history_then_sent url method params dep sun w :
  files w !! file_path config = None →
  check_if_already_send config url method params dep sun w = Ok false ∧
  (webhook_answers config →
   ∃ w', send_deprecation_webhook_slack dumps config url method params dep
           sun w = (Ok (), w') ∧
         files w' !! file_path config
         = Some (JArr [new_message url method params dep sun]) ∧
         check_if_already_send config url method params dep sun w'
         = Ok true).
Proof.
  intros Hnone. split.
  { unfold check_if_already_send. by rewrite Hnone. }
  intros Hnet.
  assert (history_readable config w) as Hfile.
  { unfold history_readable. by rewrite Hnone. }
  destruct (send_readable url method params dep sun w Hnet Hfile)
    as (w' & Hsend & Hfile' & Hhist).
  exists w'. split; [done|]. split.
  - unfold history, history_readable in *. rewrite Hnone in Hhist.
    destruct (files w' !! file_path config) as [[| | | | |l]|]; try done.
    by rewrite Hhist.
  - by apply (check_after_send _ _ _ _ _ w).
Qed.

(** C7. The emit-then-record sequence run twice on one event: the second
    run finds the event already sent and sends nothing, and over both runs
    the history grows by one entry when the event was new, and by none when
    it was already there. The first run returns [b], what the check said at
    the start. *)
Theorem slack_emit_then_record_idempotent url method params dep sun w b :
  webhook_answers config →
  history_readable config w →
  check_if_already_send config url method params dep sun w = Ok b →
  ∃ w1,
    slack_emit_then_record dumps config url method params dep sun w
    = (Ok b, w1) ∧
    check_if_already_send config url method params dep sun w1 = Ok true ∧
    slack_emit_then_record dumps config url method params dep sun w1
    = (Ok true, w1) ∧
    length (history config w1)
    = length (history config w) + (if b then 0 else 1).
Proof.
  intros Hnet Hfile Hcheck. unfold slack_emit_then_record at 1.
  rewrite Hcheck. destruct b.
  - exists w. unfold slack_emit_then_record. rewrite Hcheck.
    repeat split; done.
  - destruct (send_readable url method params dep sun w Hnet Hfile)
      as (w' & Hsend & Hfile' & Hhist).
    rewrite Hsend. exists w'.
    pose proof (check_after_send _ _ _ _ _ w w' Hfile' Hhist) as Hcheck'.
    unfold slack_emit_then_record. rewrite Hcheck'.
    repeat split; try done. rewrite Hhist, length_app. simpl. lia.
Qed.
End slack_properties.

Lemma echo_webhook_answers answer config :
  @webhook_answers (echo_remote answer) config.
Proof. intros body n. by eexists _, _. Qed.

Lemma echo_updates_answered answer : @updates_answered (echo_remote answer).
Proof. intros c n _. by eexists _, _. Qed.

Lemma slack_parameters_order_independent_witness :
  ∃ w',
    @send_deprecation_webhook_slack text_datetime (echo_remote JNull)
      example_dumps example_slack "/users" "GET" (Some ["a"; "b"]) None None
      (empty_world JNull) = (Ok (), w') ∧
    @check_if_already_send text_datetime (echo_remote JNull) example_slack
      "/users" "GET" (Some ["b"; "a"]) None None w' = Ok true.
Proof.
  apply (proj1 (@slack_parameters_order_independent text_datetime
                  (echo_remote JNull) example_dumps example_slack "/users"
                  "GET" None None (empty_world JNull)
                  (echo_webhook_answers JNull example_slack) I)
           ["a"; "b"] ["b"; "a"]).
  apply perm_swap.
Defined.

(** C5 as the specification words it fails: sent with GET, checked with get,
    the event is not found. *)
Lemma slack_method_case_counterexample :
  ∃ w',
    @send_deprecation_webhook_slack text_datetime (echo_remote JNull)
      example_dumps example_slack "/users" "GET" None None None
      (empty_world JNull) = (Ok (), w') ∧
    @check_if_already_send text_datetime (echo_remote JNull) example_slack
      "/users" "get" None None None w' = Ok false.
Proof. eexists. split; [reflexivity|]. vm_compute. reflexivity. Qed.

Lemma slack_method_compared_exactly_witness :
  ∃ w',
    @send_deprecation_webhook_slack text_datetime (echo_remote JNull)
      example_dumps example_slack "/users" "GET" None None None
      (empty_world JNull) = (Ok (), w') ∧
    @check_if_already_send text_datetime (echo_remote JNull) example_slack
      "/users" "GET" None None None w' = Ok true ∧
    @check_if_already_send text_datetime (echo_remote JNull) example_slack
      "/users" "get" None None None w'
    = @check_if_already_send text_datetime (echo_remote JNull) example_slack
        "/users" "get" None None None (empty_world JNull).
Proof.
  destruct (@slack_method_compared_exactly text_datetime (echo_remote JNull)
              example_dumps example_slack "/users" "GET" None None None
              (empty_world JNull) (echo_webhook_answers JNull example_slack) I)
    as (w' & Hsend & Hsame & Hother).
  exists w'. split; [exact Hsend|]. split; [exact Hsame|].
  apply Hother. discriminate.
Defined.

Lemma slack_missing_history_then_sent_witness :
  @check_if_already_send text_datetime (echo_remote JNull) example_slack
    "/users" "GET" (Some ["limit"]) None None (empty_world JNull) = Ok false ∧
  ∃ w',
    @send_deprecation_webhook_slack text_datetime (echo_remote JNull)
      example_dumps example_slack "/users" "GET" (Some ["limit"]) None None
      (empty_world JNull) = (Ok (), w') ∧
    @check_if_already_send text_datetime (echo_remote JNull) example_slack
      "/users" "GET" (Some ["limit"]) None None w' = Ok true.
Proof.
  destruct (@slack_missing_history_then_sent text_datetime (echo_remote JNull)
              example_dumps example_slack "/users" "GET" (Some ["limit"]) None
              None (empty_world JNull) eq_refl) as [Hfirst Hthen].
  split; [exact Hfirst|].
  destruct (Hthen (echo_webhook_answers JNull example_slack))
    as (w' & Hsend & _ & Hcheck).
  exists w'. split; [exact Hsend|exact Hcheck].
Defined.

Lemma slack_emit_then_record_idempotent_witness :
  ∃ w1,
    @slack_emit_then_record text_datetime (echo_remote JNull) example_dumps
      example_slack "/users" "GET" (Some ["limit"]) None None
      (empty_world JNull) = (Ok false, w1) ∧
    @slack_emit_then_record text_datetime (echo_remote JNull) example_dumps
      example_slack "/users" "GET" (Some ["limit"]) None None w1
    = (Ok true, w1) ∧
    length (@history (echo_remote JNull) example_slack w1) = 1.
Proof.
  destruct (@slack_emit_then_record_idempotent text_datetime
              (echo_remote JNull) example_dumps example_slack "/users" "GET"
              (Some ["limit"]) None None (empty_world JNull) false
              (echo_webhook_answers JNull example_slack) I eq_refl)
    as (w1 & Hfirst & _ & Hsecond & Hlen).
  exists w1. split; [exact Hfirst|]. split; [exact Hsecond|exact Hlen].
Defined.

(** ** The Jira sink *)

Lemma append_cons x (a b : string) : String x a +:+ b = String x (a +:+ b).
Proof. done. Qed.

Lemma append_assoc (a b c : string) : (a +:+ b) +:+ c = a +:+ b +:+ c.
Proof. induction a as [|x a IH]; [done|]. by rewrite !append_cons, IH. Qed.

Lemma append_empty_r (a : string) : a +:+ EmptyString = a.
Proof. induction a as [|x a IH]; [done|]. by rewrite append_cons, IH. Qed.

Lemma ends_with_spec suffix s :
  ends_with suffix s = true ↔ ∃ pre, s = pre +:+ suffix.
Proof.
  induction s as [|c s IH]; simpl.
  - rewrite orb_false_r, String.eqb_eq. split.
    + intros ->. by exists EmptyString.
    + intros [[|c pre] E]; [done|discriminate].
  - rewrite orb_true_iff, String.eqb_eq, IH. split.
    + intros [->|[pre ->]]; [by exists EmptyString|by exists (String c pre)].
    + intros [[|c' pre] E]; [by left|]. right. exists pre.
      rewrite append_cons in E. congruence.
Qed.

Lemma last_char_append_cons s c t :
  last_char (s +:+ String c t) = last_char (String c t).
Proof.
  induction s as [|x s IH]; [done|].
  rewrite append_cons. cbn [last_char]. rewrite IH.
  by destruct s.
Qed.

(** The tail of a filter to which the clause on empty parameters was not
    added: it ends with the word Done or with a closing quote. *)
Lemma last_char_without_clause `{Casing} `{Datetime} config url method p dep
  sun tz :
  last_char (search_filter config url method (Some p) dep sun tz) = Some "e"%char
  ∨ last_char (search_filter config url method (Some p) dep sun tz)
    = Some "034"%char.
Proof.
  unfold search_filter. rewrite append_empty_r.
  destruct sun as [d|].
  - right. unfold timestamp_clause, dquote at 8.
    rewrite <-!append_assoc. apply last_char_append_cons.
  - rewrite append_empty_r. destruct dep as [d|].
    + right. unfold timestamp_clause, dquote at 8.
      rewrite <-!append_assoc. apply last_char_append_cons.
    + left. rewrite append_empty_r. unfold base_query.
      rewrite <-!append_assoc.
      change " AND status != Done" with (" AND status != Don" +:+ "e").
      rewrite <-!append_assoc. apply last_char_append_cons.
Qed.

Lemma last_char_clause `{Casing} config pre :
  last_char (pre +:+ empty_parameter_clause config) = Some "Y"%char.
Proof.
  unfold empty_parameter_clause.
  change " is EMPTY" with (" is EMPT" +:+ "Y").
  rewrite <-!append_assoc. apply last_char_append_cons.
Qed.

(** C9, as the code has it. The filter is the filter of a call with a list
    of parameters, followed by the clause on the empty parameter field when
    and only when the list of parameters is absent; so the filter ends with
    that clause exactly when the call was made without a list. An empty list
    adds no clause. *)
Theorem search_filter_empty_clause `{Casing} `{Datetime} config url method
  params dep sun tz :
  search_filter config url method params dep sun tz
  = search_filter config url method (Some []) dep sun tz +:+
    match params with
    | None => empty_parameter_clause config
    | Some _ => EmptyString
    end ∧
  (ends_with (empty_parameter_clause config)
     (search_filter config url method params dep sun tz) = true
   ↔ params = None).
Proof.
  split.
  - unfold search_filter. rewrite !append_empty_r.
    destruct params as [p|]; by rewrite ?append_empty_r, ?append_assoc.
  - rewrite ends_with_spec. split.
    + intros [pre E]. destruct params as [p|]; [exfalso|done].
      pose proof (last_char_clause config pre) as Hlast. rewrite <-E in Hlast.
      destruct (last_char_without_clause config url method p dep sun tz)
        as [Hl|Hl]; congruence.
    + intros ->. eexists. unfold search_filter. by rewrite <-!append_assoc.
Qed.

(** C9 as the specification words it fails: called with an empty list of
    parameters, [check_if_issue_exists] sends a search whose filter does not
    end with the clause on the empty parameter field. *)
Lemma jira_empty_list_counterexample :
  let '(r, calls) :=
    @check_if_issue_exists ascii_casing text_datetime (echo_remote example_answer)
      example_dumps example_jira "/users" "GET" (Some []) None None [] in
  r = Ok true ∧
  ∃ c q, last calls = Some c ∧
         dict_get "jql" (call_fields c) = Some q ∧
         ends_with (@empty_parameter_clause ascii_casing example_jira) q = false.
Proof.
  vm_compute. split; [reflexivity|].
  eexists _, _. split; [reflexivity|]. split; [reflexivity|].
  vm_compute. reflexivity.
Qed.

Section jira_properties.
Context `{Casing} `{Datetime} `{PoolManager}.
Variable dumps : json → string.
Variable config : JIRA_Configuration.

(** The loop of updates ends well when the tracker answers every update. *)
Lemma add_missing_parameters_answered issue id labels params n :
  updates_answered →
  py_getitem issue "id" = Ok id →
  ∃ n', add_missing_parameters dumps config issue (JArr labels) params n
        = (Ok (), n').
Proof.
  intros Hnet Hid. revert n. induction params as [|param rest IH]; intros n.
  { by eexists. }
  cbn [add_missing_parameters]. unfold io_bind, lift at 1. cbn [py_contains].
  destruct (existsb _ labels); [apply IH|].
  unfold lift. rewrite Hid.
  match goal with
  | |- context [request ?c n] => destruct (Hnet c n eq_refl) as (r & n' & ->)
  end.
  apply IH.
Qed.

(** X20. Once the tracker has told its time and answered the search with a
    list of issues, [check_if_issue_exists] can only return whether that list
    is non-empty, with or without a list of parameters. It does return it,
    after adding what parameters the first issue lacks, when the tracker
    answers the updates and the first issue gives its id and a list in its
    parameter field; and it returns it with no update at all when no
    parameters are given or no issue matched. *)
Theorem check_if_issue_exists_reports url method params dep sun
  n0 r1 n1 info s sd r2 n2 data issues :
  request (HttpCall "GET" (API_URL config +:+ "/3/serverInfo") []
             (jira_header config) None) n0 = (Ok r1, n1) →
  response_json r1 = Ok info →
  py_getitem info "serverTime" = Ok (JStr s) →
  strptime_server s = Ok sd →
  request (HttpCall "GET" (API_URL config +:+ "/3/search/jql")
             [("jql", search_filter config url method params dep sun
                        (dt_tzinfo sd));
              ("fields", "*all")]
             (jira_header config) None) n1 = (Ok r2, n2) →
  response_json r2 = Ok data →
  py_getitem data "issues" = Ok (JArr issues) →
  (∀ b n', check_if_issue_exists dumps config url method params dep sun n0
           = (Ok b, n') → b = bool_decide (issues ≠ [])) ∧
  (updates_answered →
   (∀ issue rest, issues = issue :: rest → issue_readable config issue) →
   ∃ n', check_if_issue_exists dumps config url method params dep sun n0
         = (Ok (bool_decide (issues ≠ [])), n')) ∧
  (params = None ∨ params = Some [] ∨ issues = [] →
   check_if_issue_exists dumps config url method params dep sun n0
   = (Ok (bool_decide (issues ≠ [])), n2)).
Proof.
  intros Hinfo Hjson1 Htime Hparse Hsearch Hjson2 Hissues.
  assert (check_if_issue_exists dumps config url method params dep sun n0
          = match params with
            | Some (p :: ps) =>
                match issues with
                | [] => (Ok false, n2)
                | issue :: _ =>
                    io_bind (lift (py_getitem issue "fields")) (λ fields,
                    io_bind (lift (py_getitem fields
                                     (DEPRECATED_PARAMETER_FIELD config)))
                      (λ labels,
                    io_bind (add_missing_parameters dumps config issue labels
                               (p :: ps)) (λ _, lift (Ok true)))) n2
                end
            | _ => (Ok (bool_decide (issues ≠ [])), n2)
            end) as Hrun.
  { unfold check_if_issue_exists, io_bind at 1 2 3 4 5 6, lift at 1 2 3 4.
    rewrite Hinfo, Hjson1, Htime, Hparse, Hsearch, Hjson2.
    destruct params as [[|p ps]|].
    - unfold io_bind, lift. rewrite Hissues. by destruct issues.
    - unfold io_bind at 1, lift at 1. rewrite Hissues.
      destruct issues as [|issue rest]; [done|].
      rewrite py_eq_empty_list, bool_decide_eq_false_2 by done.
      unfold io_bind at 1, lift at 1. by cbn [py_first].
    - unfold io_bind, lift. rewrite Hissues. by destruct issues. }
  rewrite Hrun. clear Hrun. split; [|split].
  - intros b n'. destruct params as [[|p ps]|]; try congruence.
    destruct issues as [|issue rest].
    { intros [= <- _]. symmetry. apply bool_decide_eq_false_2. by intros Hne. }
    rewrite bool_decide_eq_true_2 by done.
    unfold io_bind, lift.
    destruct (py_getitem issue "fields") as [fields|]; [|done].
    destruct (py_getitem fields _) as [labels|]; [|done].
    destruct (add_missing_parameters _ _ _ _ _ _) as [[[]|] n3]; congruence.
  - intros Hnet Hissue. destruct params as [[|p ps]|]; eauto.
    destruct issues as [|issue rest]; eauto.
    destruct (Hissue issue rest eq_refl) as (id & fields & labels & Hid & Hf & Hl).
    unfold io_bind at 1 2, lift at 1 2. rewrite Hf, Hl.
    destruct (add_missing_parameters_answered issue id labels (p :: ps) n2
                Hnet Hid) as (n' & Hloop).
    unfold io_bind, lift. rewrite Hloop. eauto.
  - intros [-> | [-> | ->]]; try done. by destruct params as [[|p ps]|].
Qed.
End jira_properties.

Lemma check_if_issue_exists_reports_witness :
  ∃ n',
    @check_if_issue_exists ascii_casing text_datetime (echo_remote example_answer)
      example_dumps example_jira "/users" "GET" (Some ["limit"; "page"])
      None None [] = (Ok true, n').
Proof.
  apply (proj1 (proj2
    (@check_if_issue_exists_reports ascii_casing text_datetime (echo_remote example_answer)
       example_dumps example_jira "/users" "GET" (Some ["limit"; "page"])
       None None [] example_answer _ example_answer
       "2025-01-01T10:00:00.000+0000" "2025-01-01T10:00:00.000+0000"
       example_answer _ example_answer
       [JObj [("id", JStr "10042");
              ("fields", JObj [("customfield_5", JArr [JStr "limit"])])]]
       eq_refl eq_refl eq_refl eq_refl eq_refl eq_refl eq_refl))).
  - apply echo_updates_answered.
  - intros issue rest [= <- <-]. by eexists _, _, _.
Defined.

(** C8. The code breaks the claim on an issue whose parameter field is null,
    which is what [create_new_jira_issue] writes for an event without
    parameters. The search answers with one matching issue and a list of
    parameters is given, yet [check_if_issue_exists] does not return [True]:
    the membership test of the first parameter raises [TypeError], after the
    two questions to the tracker and before any update. *)
Theorem check_if_issue_exists_null_field_raises :
  py_getitem example_null_answer "issues"
  = Ok (JArr [JObj [("id", JStr "10042");
                    ("fields", JObj [("customfield_5", JNull)])]]) ∧
  dict_get (DEPRECATED_PARAMETER_FIELD example_jira)
    match @issue_payload ascii_casing text_datetime example_jira "/users"
            "GET" None None None with
    | JObj [(_, JObj fields)] => fields
    | _ => []
    end = Some JNull ∧
  @check_if_issue_exists ascii_casing text_datetime
    (echo_remote example_null_answer) example_dumps example_jira "/users"
    "GET" (Some ["limit"]) None None []
  = (Raise TypeError,
     [server_info_call example_jira;
      search_call example_jira
        (@search_filter ascii_casing text_datetime example_jira "/users" "GET"
           (Some ["limit"]) None None ())]).
Proof. split; [reflexivity|]. split; reflexivity. Qed.

(** * Further properties of the code *)

(** ** Detection *)

Lemma in_str_list_ext v (r1 r2 : list string) :
  (∀ n, n ∈ r1 ↔ n ∈ r2) → in_str_list v r1 = in_str_list v r2.
Proof.
  intros Hsame.
  destruct (in_str_list v r1) eqn:H1, (in_str_list v r2) eqn:H2; try done.
  - apply in_str_list_spec in H1 as (n & -> & Hn). apply Hsame in Hn.
    assert (in_str_list (JStr n) r2 = true) as E; [|congruence].
    apply in_str_list_spec. eauto.
  - apply in_str_list_spec in H2 as (n & -> & Hn). apply Hsame in Hn.
    assert (in_str_list (JStr n) r1 = true) as E; [|congruence].
    apply in_str_list_spec. eauto.
Qed.

Lemma scan_parameters_ext (r1 r2 : list string) pos acc :
  (∀ n, n ∈ r1 ↔ n ∈ r2) →
  scan_parameters r1 pos acc = scan_parameters r2 pos acc.
Proof.
  intros Hsame. revert acc. induction pos as [|po pos IH]; intros acc; [done|].
  cbn [scan_parameters]. unfold parameter_flagged.
  destruct (py_contains "deprecated" po) as [[]|]; cbn; try done.
  destruct (py_getitem po "deprecated") as [flag|]; cbn; [|done].
  destruct (truthy flag); cbn; [|done].
  destruct (py_getitem po "name") as [name|]; cbn; [|done].
  rewrite (in_str_list_ext name r1 r2 Hsame).
  destruct (in_str_list name r2); cbn; [|done].
  destruct (py_getitem po "in") as [loc|]; cbn; [|done].
  destruct (py_eq loc (JStr "query")); cbn; done.
Qed.

(** X1. Two spellings of the method with the same lowercase form are the
    same to the detection: both functions return the same value and raise in
    the same cases. The error can differ only in the message of the method,
    or of the parameters, not found, which prints the method of the call in
    upper case; when the two spellings have the same uppercase form too, the
    results are equal outright. *)
Theorem detection_method_case `{Casing} oas path m m' requested :
  lower m = lower m' →
  (is_operation_deprecated oas path m = is_operation_deprecated oas path m' ∨
   is_operation_deprecated oas path m = Raise (method_not_found path m) ∧
   is_operation_deprecated oas path m' = Raise (method_not_found path m')) ∧
  (are_parameter_deprecated oas path m requested
   = are_parameter_deprecated oas path m' requested ∨
   are_parameter_deprecated oas path m requested
   = Raise (method_not_found path m) ∧
   are_parameter_deprecated oas path m' requested
   = Raise (method_not_found path m') ∨
   are_parameter_deprecated oas path m requested
   = Raise (parameters_not_found path m) ∧
   are_parameter_deprecated oas path m' requested
   = Raise (parameters_not_found path m')) ∧
  (upper m = upper m' →
   is_operation_deprecated oas path m = is_operation_deprecated oas path m' ∧
   are_parameter_deprecated oas path m requested
   = are_parameter_deprecated oas path m' requested).
Proof.
  intros Hcase. unfold is_operation_deprecated, are_parameter_deprecated.
  split; [|split].
  - destruct (find_operation_case m m' oas path Hcase) as [->|[-> ->]];
      [by left|by right].
  - destruct (find_operation_case m m' oas path Hcase) as [->|[-> ->]];
      [|by right; left].
    destruct (find_operation oas path m') as [op|]; cbn; [|by left].
    destruct (py_contains "parameters" op) as [[]|]; cbn;
      [by left|by right; right|by left].
  - intros Hupper.
    assert (find_operation oas path m = find_operation oas path m') as ->.
    { unfold find_operation, method_not_found. by rewrite Hcase, Hupper. }
    unfold parameters_not_found. by rewrite Hupper.
Qed.

Section detection_method_case_witness_example.
#[local] Existing Instance ascii_casing.

Lemma detection_method_case_witness :
  is_operation_deprecated example_oas "/users" "gEt"
  = is_operation_deprecated example_oas "/users" "GET" ∧
  are_parameter_deprecated example_oas "/users" "Delete" ["limit"]
  = are_parameter_deprecated example_oas "/users" "DELETE" ["limit"].
Proof.
  split.
  - exact (proj1 (proj2 (proj2 (@detection_method_case ascii_casing
                                  example_oas "/users" "gEt" "GET" [] eq_refl))
                    eq_refl)).
  - exact (proj2 (proj2 (proj2 (@detection_method_case ascii_casing
                                  example_oas "/users" "Delete" "DELETE"
                                  ["limit"] eq_refl))
                    eq_refl)).
Defined.
End detection_method_case_witness_example.

(** X2. The requested names matter to [are_parameter_deprecated] only as a
    set: two lists with the same members, in any order and with any
    repetitions, give the same result on every document. *)
Theorem are_parameter_deprecated_requested_set `{Casing} oas path method
  (r1 r2 : list string) :
  (∀ n, n ∈ r1 ↔ n ∈ r2) →
  are_parameter_deprecated oas path method r1
  = are_parameter_deprecated oas path method r2.
Proof.
  intros Hsame. unfold are_parameter_deprecated.
  destruct (find_operation oas path method) as [op|]; cbn; [|done].
  destruct (py_contains "parameters" op) as [[]|]; cbn; try done.
  destruct (py_getitem op "parameters") as [params|]; cbn; [|done].
  destruct (py_iter params) as [pos|]; cbn; [|done].
  by rewrite (scan_parameters_ext r1 r2 pos [] Hsame).
Qed.

Section are_parameter_deprecated_requested_set_witness_example.
#[local] Existing Instance ascii_casing.

Lemma are_parameter_deprecated_requested_set_witness :
  are_parameter_deprecated example_oas "/users" "GET" ["id"; "limit"; "id"]
  = are_parameter_deprecated example_oas "/users" "GET" ["limit"; "id"].
Proof.
  apply (@are_parameter_deprecated_requested_set ascii_casing example_oas "/users" "GET"
           ["id"; "limit"; "id"] ["limit"; "id"]).
  intros n. rewrite !elem_of_cons, !elem_of_nil. tauto.
Defined.
End are_parameter_deprecated_requested_set_witness_example.

Lemma parameter_flagged_truthy requested po :
  has_name_and_location po = true →
  parameter_flagged requested po = Ok (selected_truthy requested po) ∧
  (selected_truthy requested po = true →
   ∃ n, declared_name po = Some n ∧ py_getitem po "name" = Ok (JStr n)).
Proof.
  destruct po as [| | | | |f]; try done.
  unfold has_name_and_location, parameter_flagged, selected_truthy,
    flag_truthy, declared_name, declared_location.
  intros [[nv Hn]%bool_decide_eq_true_1 [loc Hl]%bool_decide_eq_true_1]%andb_prop.
  cbn [py_contains py_getitem]. rewrite Hn, Hl.
  destruct (dict_get "deprecated" f) as [flag|] eqn:Hd; cbn; [|done].
  destruct (truthy flag); cbn; [|done].
  destruct (in_str_list nv requested) eqn:Hin; cbn.
  - apply in_str_list_spec in Hin as (n & -> & Hin).
    rewrite (bool_decide_eq_true_2 _ Hin). cbn. split; [|eauto].
    f_equal. destruct loc; cbn; try done.
    destruct (String.eqb_spec s "query") as [->|Hne].
    + by rewrite bool_decide_eq_true_2.
    + rewrite bool_decide_eq_false_2; [done|congruence].
  - assert (match match nv with JStr n => Some n | _ => None end with
            | Some n => bool_decide (n ∈ requested)
            | None => false
            end = false) as ->; [|done].
    destruct nv as [| | |n| |]; try done.
    apply bool_decide_eq_false_2. intros Hn'.
    assert (in_str_list (JStr n) requested = true) as E; [|congruence].
    apply in_str_list_spec. eauto.
Qed.

Lemma scan_parameters_truthy requested params acc :
  forallb has_name_and_location params = true →
  scan_parameters requested params acc
  = Ok (acc ++ map JStr
          (omap declared_name
             (filter (λ po, selected_truthy requested po = true) params))).
Proof.
  revert acc. induction params as [|po params IH]; intros acc Hwf; simpl.
  { by rewrite app_nil_r. }
  apply andb_prop in Hwf as [Hpo Hwf].
  destruct (parameter_flagged_truthy requested po Hpo) as [-> Hname]. simpl.
  destruct (selected_truthy requested po) eqn:Hsel.
  - destruct (Hname eq_refl) as (n & Hdecl & ->). simpl.
    rewrite IH by done. rewrite filter_cons_True by done. simpl.
    rewrite Hdecl. simpl. by rewrite <-app_assoc.
  - rewrite IH by done. rewrite filter_cons_False; [done|]. congruence.
Qed.

(** X3. The loop of [are_parameter_deprecated] tests the truth value of the
    [deprecated] entry, not that it is the boolean true: on declared
    parameters that give a name and a location, the names returned are those
    of the requested query parameters whose [deprecated] entry is any value
    Python counts as true, such as a non-empty string or a non-zero number. *)
Theorem are_parameter_deprecated_truthy `{Casing} oas path method requested op
  params :
  operation_at oas path method = Some (JObj op) →
  dict_get "parameters" op = Some (JArr params) →
  forallb has_name_and_location params = true →
  let l := omap declared_name
             (filter (λ po, selected_truthy requested po = true) params) in
  are_parameter_deprecated oas path method requested
  = Ok (bool_decide (l ≠ []), map JStr l).
Proof.
  intros Hop Hparams Hwf l. unfold are_parameter_deprecated.
  rewrite (find_operation_present _ _ _ _ Hop). cbn.
  rewrite Hparams. cbn.
  rewrite (scan_parameters_truthy requested params [] Hwf). cbn.
  fold l. do 2 f_equal. by destruct l.
Qed.

Section are_parameter_deprecated_truthy_witness_example.
#[local] Existing Instance ascii_casing.

Lemma are_parameter_deprecated_truthy_witness :
  are_parameter_deprecated example_loose_oas "/a" "GET" ["x"; "y"]
  = Ok (true, [JStr "x"]).
Proof.
  exact (@are_parameter_deprecated_truthy ascii_casing example_loose_oas "/a" "GET"
           ["x"; "y"]
           [("parameters", JArr [
              JObj [("name", JStr "x"); ("in", JStr "query");
                    ("deprecated", JStr "false")];
              JObj [("name", JStr "y"); ("in", JStr "query");
                    ("deprecated", JNum 0)]])]
           _ eq_refl eq_refl eq_refl).
Defined.
End are_parameter_deprecated_truthy_witness_example.

(** X4. The errors of [is_operation_deprecated], on any value given as the
    document: a value that is no mapping raises [TypeError]; a mapping
    without the key paths raises [KeyError] on that key; and otherwise the
    call returns a value or raises one of three errors: the path was not
    found, the method was not found, or a [TypeError]. The subscripts behind
    the two membership tests never raise a [KeyError] of their own. *)
Theorem is_operation_deprecated_errors `{Casing} oas path method :
  match oas with
  | JObj o =>
      match dict_get "paths" o with
      | None =>
          is_operation_deprecated oas path method = Raise (KeyError "paths")
      | Some _ =>
          (∃ v, is_operation_deprecated oas path method = Ok v) ∨
          is_operation_deprecated oas path method = Raise (path_not_found path) ∨
          is_operation_deprecated oas path method
          = Raise (method_not_found path method) ∨
          is_operation_deprecated oas path method = Raise TypeError
      end
  | _ => is_operation_deprecated oas path method = Raise TypeError
  end.
Proof.
  assert (∀ k c, py_contains k c = Raise TypeError ∨
                 (py_contains k c = Ok false) ∨
                 (py_contains k c = Ok true ∧
                  ((∃ v, py_getitem c k = Ok v) ∨
                   py_getitem c k = Raise TypeError))) as Hguard.
  { intros k [| | | | |o]; cbn; eauto.
    - destruct (str_contains k s); eauto 6.
    - destruct (existsb _ l); eauto 6.
    - destruct (dict_get k o) as [v|] eqn:E; cbn; eauto 8. }
  unfold is_operation_deprecated, find_operation.
  destruct oas as [| | | | |o]; try done. cbn [py_getitem].
  destruct (dict_get "paths" o) as [paths|]; [|done]. cbn [mbind result_bind].
  destruct (Hguard path paths) as [-> | [-> | [-> [[item ->] | ->]]]];
    cbn; eauto 6.
  destruct (Hguard (lower method) item) as [-> | [-> | [-> [[op ->] | ->]]]];
    cbn; eauto 6.
  destruct (Hguard "deprecated" op) as [-> | [-> | [-> [[v ->] | ->]]]];
    cbn; eauto 6.
Qed.

(** ** The Slack sink, further *)

Lemma py_eq_strs_iff (l1 l2 : list string) :
  py_eq (JArr (map JStr l1)) (JArr (map JStr l2)) = true ↔ l1 = l2.
Proof.
  cbn. revert l2. induction l1 as [|x l1 IH]; intros [|y l2]; cbn; try done.
  rewrite andb_true_iff, String.eqb_eq, IH.
  split; [by intros [-> ->]|by intros [= -> ->]].
Qed.

Lemma sorted_eq_permutation (l1 l2 : list string) :
  sorted l1 = sorted l2 ↔ l1 ≡ₚ l2.
Proof.
  split; [|apply sorted_permutation]. unfold sorted. intros E.
  by rewrite <-(merge_sort_Permutation String.le l1), E, merge_sort_Permutation.
Qed.

Lemma sorted_cons_not_nil x (l : list string) : sorted (x :: l) ≠ [].
Proof.
  intros E. assert (x :: l ≡ₚ []) as Hp.
  { rewrite <-E. unfold sorted. by rewrite merge_sort_Permutation. }
  by apply Permutation_nil_r in Hp.
Qed.

Section slack_further.
Context `{Datetime} `{PoolManager}.
Variable dumps : json → string.
Variable config : Slack_Configuration.

Lemma send_effect url method params dep sun w :
  webhook_answers config →
  history_readable config w →
  ∃ n', send_deprecation_webhook_slack dumps config url method params dep sun w
        = (Ok (),
           World (<[file_path config :=
                      JArr (history config w
                            ++ [new_message url method params dep sun])]>
                    (files w)) n').
Proof.
  intros Hnet Hfile. unfold send_deprecation_webhook_slack.
  match goal with
  | |- context [request (HttpCall _ _ _ _ (Some ?body)) ?n] =>
      destruct (Hnet body n) as (r & n' & ->)
  end.
  unfold history_readable, history in *. exists n'.
  by destruct (files w !! file_path config) as [[| | | | |l]|].
Qed.

Lemma history_after_insert l (w : world) n' :
  history config (World (<[file_path config := JArr l]> (files w)) n') = l.
Proof. unfold history. cbn. by rewrite lookup_insert_eq. Qed.

Lemma readable_after_insert l (w : world) n' :
  history_readable config
    (World (<[file_path config := JArr l]> (files w)) n').
Proof. unfold history_readable. cbn. by rewrite lookup_insert_eq. Qed.

(** X5. [send_deprecation_webhook_slack] does not look for the event in the
    history: sent twice, the event is recorded twice. Each call keeps the
    entries that were there, adds its record at the end, and leaves every
    other file as it was. *)
Theorem slack_send_appends url method params dep sun w :
  webhook_answers config →
  history_readable config w →
  ∃ w1 w2,
    send_deprecation_webhook_slack dumps config url method params dep sun w
    = (Ok (), w1) ∧
    send_deprecation_webhook_slack dumps config url method params dep sun w1
    = (Ok (), w2) ∧
    history config w1
    = history config w ++ [new_message url method params dep sun] ∧
    history config w2
    = history config w ++ [new_message url method params dep sun;
                           new_message url method params dep sun] ∧
    ∀ other, other ≠ file_path config →
      files w1 !! other = files w !! other ∧
      files w2 !! other = files w !! other.
Proof.
  intros Hnet Hfile.
  destruct (send_effect url method params dep sun w Hnet Hfile) as (n1 & Hs1).
  eexists. rewrite Hs1.
  edestruct (send_effect url method params dep sun) as (n2 & Hs2);
    [done|apply readable_after_insert|].
  eexists. rewrite Hs2. rewrite !history_after_insert.
  repeat split; try done.
  - by rewrite <-app_assoc.
  - cbn. by rewrite lookup_insert_ne.
  - cbn. by rewrite !lookup_insert_ne.
Qed.

(** X6. What a failing send leaves behind. The webhook is called before the
    history file is read: when the transport raises, the error goes to the
    caller and no file is touched; when the webhook answers but the history
    file holds something else than a list, the call raises [AttributeError]
    after the message went out, and the file stays as it was, so the event
    is not recorded. *)
Theorem slack_send_failures url method params dep sun w :
  let call :=
    HttpCall "POST" (webhook_url config) [] []
      (Some (slack_payload dumps config url method params dep sun)) in
  (∀ e n', request call (net w) = (Raise e, n') →
     send_deprecation_webhook_slack dumps config url method params dep sun w
     = (Raise e, World (files w) n')) ∧
  (∀ r n' content,
     request call (net w) = (Ok r, n') →
     files w !! file_path config = Some content →
     (∀ l, content ≠ JArr l) →
     send_deprecation_webhook_slack dumps config url method params dep sun w
     = (Raise AttributeError, World (files w) n')).
Proof.
  intros call. split.
  - intros e n' Hreq. unfold send_deprecation_webhook_slack.
    fold (slack_payload dumps config url method params dep sun). fold call.
    by rewrite Hreq.
  - intros r n' content Hreq Hcontent Hshape.
    unfold send_deprecation_webhook_slack.
    fold (slack_payload dumps config url method params dep sun). fold call.
    rewrite Hreq, Hcontent.
    destruct content as [| | | | l |]; try done. by destruct (Hshape l).
Qed.

(** X7. A send never makes the history forget: an event that the check finds
    is still found after any event, the same or another, is sent. *)
Theorem slack_send_keeps_records url method params dep sun
  url' method' params' dep' sun' w :
  webhook_answers config →
  history_readable config w →
  check_if_already_send config url method params dep sun w = Ok true →
  ∃ w', send_deprecation_webhook_slack dumps config url' method' params' dep'
          sun' w = (Ok (), w') ∧
        check_if_already_send config url method params dep sun w' = Ok true.
Proof.
  intros Hnet Hfile Hfound.
  destruct (send_effect url' method' params' dep' sun' w Hnet Hfile)
    as (n' & Hsend).
  eexists. split; [done|].
  rewrite check_readable in Hfound by done.
  assert (existsb (py_eq (new_message url method params dep sun))
            (history config w) = true) as E by congruence.
  rewrite check_readable by apply readable_after_insert. f_equal.
  by rewrite history_after_insert, existsb_app, E.
Qed.

(** X8. When two events are the same record for the Slack history: exactly
    when they have the same URL, the same method letter for letter, lists of
    parameters that are reorderings of each other (an absent list counting as
    the empty one), and the same ISO text, or absence, of each date. *)
Theorem slack_record_identity url1 method1 params1 dep1 sun1
  url2 method2 params2 dep2 sun2 :
  py_eq (new_message url1 method1 params1 dep1 sun1)
        (new_message url2 method2 params2 dep2 sun2) = true
  ↔ url1 = url2 ∧ method1 = method2 ∧
    parameters_of params1 ≡ₚ parameters_of params2 ∧
    iso_or_none dep1 = iso_or_none dep2 ∧
    iso_or_none sun1 = iso_or_none sun2.
Proof.
  assert (∀ d1 d2, py_eq (iso_or_none d1) (iso_or_none d2) = true
                   ↔ iso_or_none d1 = iso_or_none d2) as Hdate.
  { intros [d1|] [d2|]; cbn; try done.
    rewrite String.eqb_eq. split; congruence. }
  assert (∀ p1 p2,
            py_eq match p1 with
                  | Some (p :: ps) => JArr (map JStr (sorted (p :: ps)))
                  | _ => JNull
                  end
                  match p2 with
                  | Some (p :: ps) => JArr (map JStr (sorted (p :: ps)))
                  | _ => JNull
                  end = true
            ↔ parameters_of p1 ≡ₚ parameters_of p2) as Hparams.
  { assert (∀ x (l : list string), ¬ ([] ≡ₚ x :: l)) as Hnil.
    { intros x l Hp. by apply Permutation_nil_cons in Hp. }
    assert (∀ x (l : list string), ¬ (x :: l ≡ₚ [])) as Hnil'.
    { intros x l Hp. symmetry in Hp. by apply Permutation_nil_cons in Hp. }
    intros [[|x1 l1]|] [[|x2 l2]|]; unfold parameters_of; cbn [default];
      try (split; [done|intros Hp; by (apply Hnil in Hp || apply Hnil' in Hp)]);
      try done.
    - by rewrite py_eq_strs_iff, sorted_eq_permutation. }
  unfold new_message. cbn -[sorted py_eq]. unfold py_eq at 1. cbn -[sorted py_eq].
  fold py_eq.
  rewrite !andb_true_iff, !String.eqb_eq, Hparams, !Hdate. tauto.
Qed.

(** X9. A history file that holds no list never makes the check find an
    event: on an object or a string the check answers [False], and on null, a
    boolean or a number it raises [TypeError]. *)
Theorem slack_check_without_list url method params dep sun w content :
  files w !! file_path config = Some content →
  (∀ l, content ≠ JArr l) →
  check_if_already_send config url method params dep sun w
  = match content with
    | JObj _ | JStr _ => Ok false
    | _ => Raise TypeError
    end.
Proof.
  intros Hcontent Hshape. unfold check_if_already_send. rewrite Hcontent.
  destruct content as [| | | s | l | o]; try done.
  - cbn [py_iter mbind result_bind]. f_equal. clear Hcontent Hshape.
    induction s as [|c s IH]; [done|]. cbn [str_chars existsb]. by rewrite IH.
  - by destruct (Hshape l).
  - cbn [py_iter mbind result_bind]. f_equal. clear Hcontent Hshape.
    induction o as [|[k v] o IH]; [done|]. cbn [map existsb]. by rewrite IH.
Qed.
End slack_further.

Lemma slack_send_appends_witness :
  ∃ w1 w2,
    @send_deprecation_webhook_slack text_datetime (echo_remote JNull)
      example_dumps example_slack "/users" "GET" None None None
      (empty_world JNull) = (Ok (), w1) ∧
    @send_deprecation_webhook_slack text_datetime (echo_remote JNull)
      example_dumps example_slack "/users" "GET" None None None w1
    = (Ok (), w2) ∧
    length (@history (echo_remote JNull) example_slack w2) = 2.
Proof.
  destruct (@slack_send_appends text_datetime (echo_remote JNull)
              example_dumps example_slack "/users" "GET" None None None
              (empty_world JNull) (echo_webhook_answers JNull example_slack) I)
    as (w1 & w2 & H1 & H2 & _ & Hh & _).
  exists w1, w2. split; [exact H1|]. split; [exact H2|]. by rewrite Hh.
Defined.

Lemma slack_send_failures_witness :
  @send_deprecation_webhook_slack text_datetime failing_remote example_dumps
    example_slack "/users" "GET" None None None
    (@World failing_remote ∅ ())
  = (Raise TransportError, @World failing_remote ∅ ()) ∧
  @send_deprecation_webhook_slack text_datetime (echo_remote JNull)
    example_dumps example_slack "/users" "GET" None None None
    (@World (echo_remote JNull) {[ "slack_messages.json" := JObj [] ]} [])
  = (Raise AttributeError,
     @World (echo_remote JNull) {[ "slack_messages.json" := JObj [] ]}
       [HttpCall "POST" "https://hooks.example/T0" [] []
          (Some (@slack_payload text_datetime example_dumps example_slack
                   "/users" "GET" None None None))]).
Proof.
  split.
  - apply (proj1 (@slack_send_failures text_datetime failing_remote
                    example_dumps example_slack "/users" "GET" None None None
                    (@World failing_remote ∅ ()))).
    reflexivity.
  - exact (proj2 (@slack_send_failures text_datetime (echo_remote JNull)
                    example_dumps example_slack "/users" "GET" None None None
                    (@World (echo_remote JNull)
                       {[ "slack_messages.json" := JObj [] ]} []))
             JNull
             [HttpCall "POST" "https://hooks.example/T0" [] []
                (Some (@slack_payload text_datetime example_dumps
                         example_slack "/users" "GET" None None None))]
             (JObj []) eq_refl eq_refl ltac:(discriminate)).
Defined.

Lemma slack_send_keeps_records_witness :
  ∃ w',
    @send_deprecation_webhook_slack text_datetime (echo_remote JNull)
      example_dumps example_slack "/orders" "POST" None None None
      (@World (echo_remote JNull)
         {[ "slack_messages.json" :=
              JArr [@new_message text_datetime "/users" "GET" None None None] ]}
         []) = (Ok (), w') ∧
    @check_if_already_send text_datetime (echo_remote JNull) example_slack
      "/users" "GET" None None None w' = Ok true.
Proof.
  apply (@slack_send_keeps_records text_datetime (echo_remote JNull)
           example_dumps example_slack "/users" "GET" None None None
           "/orders" "POST" None None None
           (@World (echo_remote JNull)
              {[ "slack_messages.json" :=
                   JArr [@new_message text_datetime "/users" "GET" None None
                           None] ]} [])
           (echo_webhook_answers JNull example_slack)
           ltac:(vm_compute; exact I) ltac:(vm_compute; reflexivity)).
Defined.

Lemma slack_check_without_list_witness :
  @check_if_already_send text_datetime (echo_remote JNull) example_slack
    "/users" "GET" None None None
    (@World (echo_remote JNull) {[ "slack_messages.json" := JObj [] ]} [])
  = Ok false ∧
  @check_if_already_send text_datetime (echo_remote JNull) example_slack
    "/users" "GET" None None None
    (@World (echo_remote JNull) {[ "slack_messages.json" := JNull ]} [])
  = Raise TypeError.
Proof.
  split.
  - apply (@slack_check_without_list text_datetime (echo_remote JNull)
             example_slack "/users" "GET" None None None
             (@World (echo_remote JNull)
                {[ "slack_messages.json" := JObj [] ]} []) (JObj []));
      [reflexivity|discriminate].
  - apply (@slack_check_without_list text_datetime (echo_remote JNull)
             example_slack "/users" "GET" None None None
             (@World (echo_remote JNull)
                {[ "slack_messages.json" := JNull ]} []) JNull);
      [reflexivity|discriminate].
Defined.

(** ** The Jira credential *)

Ltac divmod := zify; Z.div_mod_to_equations; lia.

Lemma list_ind3 {A} (P : list A → Prop) :
  P [] → (∀ a, P [a]) → (∀ a b, P [a; b]) →
  (∀ a b c rest, P rest → P (a :: b :: c :: rest)) →
  ∀ l, P l.
Proof.
  intros H0 H1 H2 H3. fix IH 1. intros [|a [|b [|c rest]]].
  - exact H0.
  - exact (H1 a).
  - exact (H2 a b).
  - exact (H3 a b c rest (IH rest)).
Qed.

Lemma b64_index_char n :
  n < 64 → b64_index (b64_char n) = Some n ∧ b64_char n ≠ "="%char.
Proof.
  intros Hn. do 64 (destruct n as [|n]; [by vm_compute|]). lia.
Qed.

Lemma b64decode_encode bytes :
  Forall (λ b, b < 256) bytes → b64decode (b64encode bytes) = Some bytes.
Proof.
  induction bytes as [|a|a b|a b c rest IH] using list_ind3; intros Hb.
  - done.
  - apply Forall_cons in Hb as [Ha _]. cbn [b64encode b64decode].
    destruct (b64_index_char (a / 4)) as [-> _]; [divmod|].
    destruct (b64_index_char (a mod 4 * 16)) as [-> _]; [divmod|].
    unfold mbind, option_bind.
    change (Ascii.eqb "=" "=") with true.
    change (String.eqb EmptyString EmptyString) with true.
    cbn [andb]. do 2 f_equal. divmod.
  - apply Forall_cons in Hb as [Ha [Hb _]%Forall_cons].
    cbn [b64encode b64decode].
    destruct (b64_index_char (a / 4)) as [-> _]; [divmod|].
    destruct (b64_index_char (a mod 4 * 16 + b / 16)) as [-> _]; [divmod|].
    destruct (b64_index_char (b mod 16 * 4)) as [-> Hne]; [divmod|].
    apply Ascii.eqb_neq in Hne. rewrite Hne.
    unfold mbind, option_bind.
    change (Ascii.eqb "=" "=") with true.
    change (String.eqb EmptyString EmptyString) with true.
    cbn [andb]. f_equal. f_equal; [divmod|]. f_equal. divmod.
  - apply Forall_cons in Hb as [Ha [Hb [Hc Hrest]%Forall_cons]%Forall_cons].
    cbn [b64encode b64decode].
    destruct (b64_index_char (a / 4)) as [-> _]; [divmod|].
    destruct (b64_index_char (a mod 4 * 16 + b / 16)) as [-> _]; [divmod|].
    destruct (b64_index_char (b mod 16 * 4 + c / 64)) as [-> Hne3]; [divmod|].
    destruct (b64_index_char (c mod 64)) as [-> Hne4]; [divmod|].
    apply Ascii.eqb_neq in Hne3, Hne4. rewrite Hne3, Hne4, (IH Hrest).
    unfold mbind, option_bind.
    f_equal. f_equal; [divmod|]. f_equal; [divmod|]. f_equal. divmod.
Qed.

Lemma b64encode_length bytes :
  String.length (b64encode bytes) = 4 * ((length bytes + 2) / 3).
Proof.
  induction bytes as [|a|a b|a b c rest IH] using list_ind3; try done.
  cbn [b64encode String.length length]. rewrite IH. divmod.
Qed.

Lemma encode_ascii_codes s :
  encode_ascii s = if is_ascii s then Ok (str_codes s) else Raise ValueError.
Proof.
  unfold is_ascii, str_codes. induction s as [|c s IH]; [done|].
  cbn [encode_ascii list_ascii_of_string forallb map].
  destruct (nat_of_ascii c <? 128)%nat; [|done]. rewrite IH. cbn.
  by destruct (forallb _ _).
Qed.

Lemma str_codes_bytes s : Forall (λ b, b < 256) (str_codes s).
Proof.
  unfold str_codes. induction s as [|c s IH]; cbn; [done|].
  constructor; [apply nat_ascii_bounded|done].
Qed.

Lemma str_codes_length s : length (str_codes s) = String.length s.
Proof.
  unfold str_codes. induction s as [|c s IH]; cbn; [done|]. by f_equal.
Qed.

(** X10. On an e-mail address and a token of ASCII characters
    [create_base64_auth] stores, and changes nothing else, a text from which
    the decoder of base64 gives back the characters of the address, a colon
    and the token; the text has four characters for every three of them,
    rounded up, and the Authorization header of the configuration is the
    word Basic followed by it. *)
Theorem create_base64_auth_credential config :
  let auth_str := USER_EMAIL config +:+ ":" +:+ API_TOKEN config in
  is_ascii auth_str = true →
  ∃ auth,
    create_base64_auth config = Ok (with_BASE64_AUTH config (Some auth)) ∧
    b64decode auth = Some (str_codes auth_str) ∧
    String.length auth = 4 * ((String.length auth_str + 2) / 3) ∧
    dict_get "Authorization"
      (jira_header (with_BASE64_AUTH config (Some auth)))
    = Some ("Basic " +:+ auth).
Proof.
  intros auth_str Hascii. exists (b64encode (str_codes auth_str)).
  split; [|split; [|split]].
  - unfold create_base64_auth. fold auth_str.
    by rewrite encode_ascii_codes, Hascii.
  - apply b64decode_encode, str_codes_bytes.
  - by rewrite b64encode_length, str_codes_length.
  - done.
Qed.

Lemma create_base64_auth_credential_witness :
  create_base64_auth example_jira
  = Ok (with_BASE64_AUTH example_jira (Some "ZGV2QGV4YW1wbGUub3JnOnRva2Vu")) ∧
  b64decode "ZGV2QGV4YW1wbGUub3JnOnRva2Vu"
  = Some (str_codes "dev@example.org:token").
Proof.
  destruct (create_base64_auth_credential example_jira eq_refl)
    as (auth & Hrun & Hdecode & _).
  assert (auth = "ZGV2QGV4YW1wbGUub3JnOnRva2Vu") as ->.
  { vm_compute in Hrun. congruence. }
  split; [exact Hrun|exact Hdecode].
Defined.

(** X11. When the e-mail address or the token holds a character that is not
    ASCII, [create_base64_auth] raises the encoding error, a [ValueError],
    and gives no configuration back. *)
Theorem create_base64_auth_not_ascii config :
  is_ascii (USER_EMAIL config +:+ ":" +:+ API_TOKEN config) = false →
  create_base64_auth config = Raise ValueError.
Proof.
  intros Hascii. unfold create_base64_auth.
  by rewrite encode_ascii_codes, Hascii.
Qed.

Lemma create_base64_auth_not_ascii_witness :
  create_base64_auth
    (with_BASE64_AUTH
       {| API_URL := API_URL example_jira;
          API_TOKEN := String (ascii_of_nat 233) "token";
          USER_EMAIL := USER_EMAIL example_jira;
          DEPRECATION_ISSUE_TYPE_KEY := DEPRECATION_ISSUE_TYPE_KEY example_jira;
          DEPRECATION_ISSUE_TYPE_ID := DEPRECATION_ISSUE_TYPE_ID example_jira;
          PROJECT_KEY := PROJECT_KEY example_jira;
          PROJECT_ID := PROJECT_ID example_jira;
          DEPRECATION_URL_FIELD := DEPRECATION_URL_FIELD example_jira;
          DEPRECATION_URL_FIELD_NAME := DEPRECATION_URL_FIELD_NAME example_jira;
          DEPRECATION_HTTP_FIELD := DEPRECATION_HTTP_FIELD example_jira;
          DEPRECATION_HTTP_FIELD_NAME :=
            DEPRECATION_HTTP_FIELD_NAME example_jira;
          SUNSET_HTTP_FIELD := SUNSET_HTTP_FIELD example_jira;
          SUNSET_HTTP_FIELD_NAME := SUNSET_HTTP_FIELD_NAME example_jira;
          HTTP_METHOD_FIELD := HTTP_METHOD_FIELD example_jira;
          HTTP_METHOD_FIELD_NAME := HTTP_METHOD_FIELD_NAME example_jira;
          DEPRECATED_PARAMETER_FIELD := DEPRECATED_PARAMETER_FIELD example_jira;
          DEPRECATED_PARAMETER_FIELD_NAME :=
            DEPRECATED_PARAMETER_FIELD_NAME example_jira;
          BASE64_AUTH := None |} None)
  = Raise ValueError.
Proof. apply create_base64_auth_not_ascii. reflexivity. Defined.

(** ** The creation of an issue *)

Lemma dict_set_fresh {A} k (v : A) o :
  k ∉ o.*1 → dict_set k v o = o ++ [(k, v)].
Proof.
  induction o as [|[k' v'] o IH]; cbn; [done|].
  intros [Hne Hnot]%not_elem_of_cons.
  apply String.eqb_neq in Hne. rewrite Hne. by rewrite IH.
Qed.

Lemma dict_of_distinct_from {A} (entries acc : list (string * A)) :
  NoDup (acc.*1 ++ entries.*1) →
  fold_left (λ o kv, dict_set kv.1 kv.2 o) entries acc = acc ++ entries.
Proof.
  revert acc. induction entries as [|[k v] entries IH]; intros acc Hnd; cbn.
  { by rewrite app_nil_r. }
  rewrite dict_set_fresh.
  - rewrite IH; [by rewrite <-app_assoc|].
    rewrite fmap_app. cbn. by rewrite <-app_assoc.
  - apply NoDup_app in Hnd as (_ & Hdisj & _). intros Hin.
    apply (Hdisj k Hin). cbn. left.
Qed.

Lemma dict_of_distinct {A} (entries : list (string * A)) :
  NoDup entries.*1 → dict_of entries = entries.
Proof. intros Hnd. by apply (dict_of_distinct_from entries []). Qed.

Lemma dict_get_distinct {A} k (v : A) o :
  NoDup o.*1 → (k, v) ∈ o → dict_get k o = Some v.
Proof.
  induction o as [|[k' v'] o IH]; cbn; [by intros _ ?%elem_of_nil|].
  intros [Hnot Hnd]%NoDup_cons [[= <- <-]|Hin]%elem_of_cons.
  - by rewrite String.eqb_refl.
  - destruct (String.eqb_spec k k') as [->|Hne]; [|by apply IH].
    destruct Hnot. apply list_elem_of_fmap. by exists (k', v).
Qed.

(** X12. When the five field ids of the configuration differ from each
    other and from the three fixed keys, the fields of a new issue hold, in
    the order of the display: the URL, the two dates as ISO text or null, the
    method in upper case, the parameters in the order given (null only when
    the list is absent, an empty list being sent as a list), and the summary
    chosen by the presence of the list. *)
Theorem issue_payload_fields `{Casing} `{Datetime} config url method params dep
  sun :
  NoDup (issue_field_keys config) →
  ∃ fields,
    issue_payload config url method params dep sun
    = JObj [("fields", JObj fields)] ∧
    fields.*1 = issue_field_keys config ∧
    dict_get (DEPRECATION_URL_FIELD config) fields = Some (JStr url) ∧
    dict_get (DEPRECATION_HTTP_FIELD config) fields = Some (iso_or_none dep) ∧
    dict_get (SUNSET_HTTP_FIELD config) fields = Some (iso_or_none sun) ∧
    dict_get (HTTP_METHOD_FIELD config) fields = Some (JStr (upper method)) ∧
    dict_get (DEPRECATED_PARAMETER_FIELD config) fields
    = Some match params with
           | Some l => JArr (map JStr l)
           | None => JNull
           end ∧
    dict_get "summary" fields
    = Some (JStr match params with
                 | Some _ =>
                     "At least one parameter of the API endpoint " +:+ url
                     +:+ " is deprecated."
                 | None => "The API endpoint " +:+ url +:+ " is deprecated."
                 end).
Proof.
  intros Hnd. unfold issue_payload. eexists. split.
  { rewrite dict_of_distinct; [reflexivity|exact Hnd]. }
  split; [done|].
  repeat split; (apply dict_get_distinct; [exact Hnd|]);
    rewrite !elem_of_cons; tauto.
Qed.

Lemma issue_payload_fields_witness :
  ∃ fields,
    @issue_payload ascii_casing text_datetime example_jira "/users" "get" (Some []) None
      None = JObj [("fields", JObj fields)] ∧
    dict_get "customfield_4" fields = Some (JStr "GET") ∧
    dict_get "customfield_5" fields = Some (JArr []).
Proof.
  destruct (@issue_payload_fields ascii_casing text_datetime example_jira "/users" "get"
              (Some []) None None)
    as (fields & Hp & _ & _ & _ & _ & Hm & Hl & _).
  { apply (bool_decide_unpack (NoDup (issue_field_keys example_jira))).
    by vm_compute. }
  exists fields. split; [exact Hp|]. split; [exact Hm|exact Hl].
Defined.

(** ** The calls of the Jira sink *)

Lemma existsb_py_eq_strs p (labels : list string) :
  existsb (λ e, py_eq e (JStr p)) (map JStr labels) = bool_decide (p ∈ labels).
Proof.
  induction labels as [|x labels IH]; cbn [map existsb].
  { by rewrite bool_decide_eq_false_2 by apply not_elem_of_nil. }
  rewrite IH, py_eq_str. destruct (decide (x = p)) as [->|Hne].
  - rewrite (bool_decide_eq_true_2 (p = p)) by done.
    by rewrite (bool_decide_eq_true_2 (p ∈ p :: labels)) by left.
  - rewrite (bool_decide_eq_false_2 (x = p)) by done. cbn.
    apply bool_decide_ext. rewrite elem_of_cons.
    split; [by right|]. by intros [E|Hin]; [destruct Hne|].
Qed.

Lemma add_missing_parameters_recorded (P : PoolManager) dumps config issue id
  (labels params : list string) n log :
  @updates_answered P →
  py_getitem issue "id" = Ok id →
  ∃ n',
    @add_missing_parameters (recording P) dumps config issue
      (JArr (map JStr labels)) params (n, log)
    = (Ok (),
       (n', log ++ map (update_call dumps config id)
                     (filter (λ p, p ∉ labels) params))).
Proof.
  intros Hnet Hid. revert n log.
  induction params as [|param rest IH]; intros n log.
  { exists n. cbn. by rewrite app_nil_r. }
  cbn [add_missing_parameters]. unfold io_bind at 1, lift at 1.
  cbn [py_contains]. rewrite existsb_py_eq_strs, filter_cons.
  destruct (decide (param ∈ labels)) as [Hin|Hnot].
  - rewrite bool_decide_eq_true_2 by done.
    rewrite decide_False by (by intros Hn). apply IH.
  - rewrite bool_decide_eq_false_2 by done. rewrite decide_True by done.
    unfold io_bind at 1, lift at 1. rewrite Hid.
    unfold io_bind at 1. fold (update_call dumps config id param).
    destruct (Hnet (update_call dumps config id param) n eq_refl)
      as (r & n1 & Hreq).
    cbn [request recording fst snd]. rewrite Hreq.
    destruct (IH n1 (log ++ [update_call dumps config id param]))
      as (n' & ->).
    exists n'. cbn [map]. by rewrite <-app_assoc.
Qed.

(** X13. The calls [check_if_issue_exists] makes when an issue matches: the
    question for the server time, the search, and then one update for each
    given parameter that the first issue does not hold, in the order given,
    each adding that one parameter to that issue; a parameter the issue
    holds causes no call, and no other issue is touched. The call
    returns [True]. *)
Theorem check_if_issue_exists_calls (C : Casing) (D : Datetime)
  (P : PoolManager) dumps
  config url method params dep sun n0 log r1 n1 info s sd r2 n2 data
  issue rest id fields (labels : list string) :
  @request P (server_info_call config) n0 = (Ok r1, n1) →
  @response_json P r1 = Ok info →
  py_getitem info "serverTime" = Ok (JStr s) →
  strptime_server s = Ok sd →
  @request P (search_call config
                (search_filter config url method params dep sun
                   (dt_tzinfo sd))) n1 = (Ok r2, n2) →
  @response_json P r2 = Ok data →
  py_getitem data "issues" = Ok (JArr (issue :: rest)) →
  py_getitem issue "id" = Ok id →
  py_getitem issue "fields" = Ok fields →
  py_getitem fields (DEPRECATED_PARAMETER_FIELD config)
  = Ok (JArr (map JStr labels)) →
  @updates_answered P →
  ∃ n',
    @check_if_issue_exists C D (recording P) dumps config url method params
      dep sun (n0, log)
    = (Ok true,
       (n', log
            ++ [server_info_call config;
                search_call config
                  (search_filter config url method params dep sun
                     (dt_tzinfo sd))]
            ++ map (update_call dumps config id)
                 (filter (λ p, p ∉ labels) (parameters_of params)))).
Proof.
  intros Hinfo Hjson1 Htime Hparse Hsearch Hjson2 Hissues Hid Hfields Hlabels
    Hnet.
  unfold check_if_issue_exists, io_bind at 1 2 3 4 5 6, lift at 1 2 3 4.
  fold (server_info_call config).
  cbn [request recording fst snd]. rewrite Hinfo.
  cbn [response_json recording]. rewrite Hjson1, Htime, Hparse.
  fold (search_call config
          (search_filter config url method params dep sun (dt_tzinfo sd))).
  cbn [fst snd]. rewrite Hsearch. cbn [response_json recording].
  rewrite Hjson2.
  destruct params as [[|p ps]|].
  - unfold io_bind, lift. rewrite Hissues. exists n2.
    change (parameters_of (Some [])) with (@nil string).
    rewrite filter_nil. cbn [map]. by rewrite app_nil_r, <-app_assoc.
  - unfold io_bind at 1, lift at 1. rewrite Hissues.
    rewrite py_eq_empty_list, bool_decide_eq_false_2 by done.
    unfold io_bind at 1 2 3, lift at 1 2 3. cbn [py_first].
    rewrite Hfields, Hlabels.
    destruct (add_missing_parameters_recorded P dumps config issue id labels
                (p :: ps) n2
                ((log ++ [server_info_call config])
                 ++ [search_call config
                       (search_filter config url method (Some (p :: ps))
                          dep sun (dt_tzinfo sd))]) Hnet Hid)
      as (n' & Hloop).
    unfold io_bind, lift. rewrite Hloop. exists n'.
    change (parameters_of (Some (p :: ps))) with (p :: ps).
    by rewrite <-!app_assoc.
  - unfold io_bind, lift. rewrite Hissues. exists n2.
    change (parameters_of None) with (@nil string).
    rewrite filter_nil. cbn [map]. by rewrite app_nil_r, <-app_assoc.
Qed.

Lemma check_if_issue_exists_calls_witness :
  ∃ n',
    @check_if_issue_exists ascii_casing text_datetime (recording (echo_remote example_answer))
      example_dumps example_jira "/users" "GET"
      (Some ["page"; "limit"; "page"]) None None ([], [])
    = (Ok true,
       (n', [server_info_call example_jira;
             search_call example_jira
               (@search_filter ascii_casing text_datetime example_jira "/users" "GET"
                  (Some ["page"; "limit"; "page"]) None None ());
             update_call example_dumps example_jira (JStr "10042") "page";
             update_call example_dumps example_jira (JStr "10042") "page"])).
Proof.
  exact (check_if_issue_exists_calls ascii_casing text_datetime
           (echo_remote example_answer)
           example_dumps example_jira "/users" "GET"
           (Some ["page"; "limit"; "page"]) None None [] []
           example_answer _ example_answer "2025-01-01T10:00:00.000+0000"
           "2025-01-01T10:00:00.000+0000" example_answer _ example_answer
           (JObj [("id", JStr "10042");
                  ("fields", JObj [("customfield_5", JArr [JStr "limit"])])])
           [] (JStr "10042") (JObj [("customfield_5", JArr [JStr "limit"])])
           ["limit"]
           eq_refl eq_refl eq_refl eq_refl eq_refl eq_refl eq_refl eq_refl
           eq_refl eq_refl (echo_updates_answered example_answer)).
Defined.

(** X14. The Jira sink reads the method through its uppercase form only:
    two methods with the same uppercase form make [check_if_issue_exists] and
    [create_new_jira_issue] send the same calls and give the same result. *)
Theorem jira_method_case `{Casing} `{Datetime} `{PoolManager} dumps config url
  m m' params dep sun :
  upper m = upper m' →
  check_if_issue_exists dumps config url m params dep sun
  = check_if_issue_exists dumps config url m' params dep sun ∧
  create_new_jira_issue dumps config url m params dep sun
  = create_new_jira_issue dumps config url m' params dep sun.
Proof.
  intros Hcase.
  unfold check_if_issue_exists, create_new_jira_issue, search_filter,
    base_query, issue_payload.
  by rewrite Hcase.
Qed.

Lemma jira_method_case_witness :
  @check_if_issue_exists ascii_casing text_datetime (echo_remote example_answer)
    example_dumps example_jira "/users" "get" None None None
  = @check_if_issue_exists ascii_casing text_datetime
      (echo_remote example_answer) example_dumps example_jira "/users" "GET"
      None None None.
Proof.
  exact (proj1 (@jira_method_case ascii_casing text_datetime
                  (echo_remote example_answer) example_dumps example_jira
                  "/users" "get" "GET" None None None eq_refl)).
Defined.

(** X15. When parameters are given and the parameter field of the first
    matching issue is null, [check_if_issue_exists] raises [TypeError] at the
    membership test of the first parameter: it returns nothing and sends no
    update. *)
Theorem check_if_issue_exists_null_field `{Casing} `{Datetime} `{PoolManager}
  dumps
  config url method p ps dep sun n0 r1 n1 info s sd r2 n2 data issue rest
  fields :
  request (server_info_call config) n0 = (Ok r1, n1) →
  response_json r1 = Ok info →
  py_getitem info "serverTime" = Ok (JStr s) →
  strptime_server s = Ok sd →
  request (search_call config
             (search_filter config url method (Some (p :: ps)) dep sun
                (dt_tzinfo sd))) n1 = (Ok r2, n2) →
  response_json r2 = Ok data →
  py_getitem data "issues" = Ok (JArr (issue :: rest)) →
  py_getitem issue "fields" = Ok fields →
  py_getitem fields (DEPRECATED_PARAMETER_FIELD config) = Ok JNull →
  check_if_issue_exists dumps config url method (Some (p :: ps)) dep sun n0
  = (Raise TypeError, n2).
Proof.
  intros Hinfo Hjson1 Htime Hparse Hsearch Hjson2 Hissues Hfields Hlabels.
  unfold check_if_issue_exists, io_bind at 1 2 3 4 5 6, lift at 1 2 3 4.
  fold (server_info_call config). rewrite Hinfo, Hjson1, Htime, Hparse.
  fold (search_call config
          (search_filter config url method (Some (p :: ps)) dep sun
             (dt_tzinfo sd))).
  rewrite Hsearch, Hjson2.
  unfold io_bind at 1, lift at 1. rewrite Hissues.
  rewrite py_eq_empty_list, bool_decide_eq_false_2 by done.
  unfold io_bind at 1 2 3, lift at 1 2 3. cbn [py_first].
  by rewrite Hfields, Hlabels.
Qed.

Lemma check_if_issue_exists_null_field_witness :
  @check_if_issue_exists ascii_casing text_datetime (echo_remote example_null_answer)
    example_dumps example_jira "/users" "GET" (Some ["limit"]) None None []
  = (Raise TypeError,
     [server_info_call example_jira;
      search_call example_jira
        (@search_filter ascii_casing text_datetime example_jira "/users" "GET"
           (Some ["limit"]) None None ())]).
Proof.
  exact (@check_if_issue_exists_null_field ascii_casing
           text_datetime
           (echo_remote example_null_answer) example_dumps example_jira
           "/users" "GET" "limit" [] None None [] example_null_answer _
           example_null_answer "2025-01-01T10:00:00.000+0000"
           "2025-01-01T10:00:00.000+0000" example_null_answer _
           example_null_answer
           (JObj [("id", JStr "10042");
                  ("fields", JObj [("customfield_5", JNull)])])
           [] (JObj [("customfield_5", JNull)])
           eq_refl eq_refl eq_refl eq_refl eq_refl eq_refl eq_refl eq_refl
           eq_refl).
Defined.

(** ** The configuration registry *)

(** X16. The registry shares the list of header names with the caller:
    after [set_deprecation_http_header] is given a list object and
    [add_deprecation_http_header] another, the getter hands out the first
    object itself, and that object, the caller's own list, now holds its
    old names followed by the added ones; every other list object is as
    before. Adding the list to itself doubles it. *)
Theorem header_list_shared st r r2 l l2 :
  lists st !! r = Some l →
  lists st !! r2 = Some l2 →
  let st' := add_deprecation_http_header r2 (set_deprecation_http_header r st) in
  get_deprecation_http_header st' = r ∧
  lists st' !! r = Some (l ++ l2) ∧
  header_names st' = l ++ l2 ∧
  ∀ r', r' ≠ r → lists st' !! r' = lists st !! r'.
Proof.
  intros Hl Hl2 st'. subst st'.
  unfold header_names, get_deprecation_http_header,
    add_deprecation_http_header, set_deprecation_http_header. cbn.
  rewrite Hl, Hl2. cbn. rewrite lookup_insert_eq.
  repeat split; try done. intros r' Hne. by rewrite lookup_insert_ne.
Qed.

Lemma header_list_shared_witness :
  let st := Registry false 0 None None None
              {[ 0 := []; 1 := ["x-api-deprecated"] ]} in
  let st' := add_deprecation_http_header 1 (set_deprecation_http_header 1 st) in
  lists st' !! 1 = Some ["x-api-deprecated"; "x-api-deprecated"] ∧
  lists st' !! 0 = Some [].
Proof.
  intros st st'.
  destruct (header_list_shared st 1 1 ["x-api-deprecated"]
              ["x-api-deprecated"] eq_refl eq_refl)
    as (_ & Hown & _ & Hother).
  split; [exact Hown|].
  transitivity (lists st !! 0); [exact (Hother 0 ltac:(discriminate))|].
  reflexivity.
Defined.

(** X17. No call of the registry removes a sink: a logging, Slack or Jira
    configuration that is set is still set, to some configuration, after
    any sequence of calls of the setters. *)
Theorem registry_sinks_stay calls st :
  (is_Some (get_logging_configuration st) →
   is_Some (get_logging_configuration (run_calls calls st))) ∧
  (is_Some (get_slack_configuration st) →
   is_Some (get_slack_configuration (run_calls calls st))) ∧
  (is_Some (get_jira_configuration st) →
   is_Some (get_jira_configuration (run_calls calls st))).
Proof.
  revert st. induction calls as [|c calls IH]; intros st; [done|].
  cbn [run_calls fold_left]. fold (run_calls calls (run_call c st)).
  destruct (IH (run_call c st)) as (IHl & IHs & IHj).
  repeat split; intros Hset; [apply IHl|apply IHs|apply IHj];
    destruct c as [[?|] [?|] [?|]| | |]; done.
Qed.

Lemma registry_sinks_stay_witness :
  is_Some (get_slack_configuration
             (run_calls [CallSetNotification None None (Some example_jira);
                         CallDetection false; CallAddHeader 0]
                (set_deprecation_notification None (Some example_slack) None
                   initial_registry))).
Proof.
  apply (proj1 (proj2 (registry_sinks_stay
                         [CallSetNotification None None (Some example_jira);
                          CallDetection false; CallAddHeader 0]
                         (set_deprecation_notification None
                            (Some example_slack) None initial_registry)))).
  by eexists.
Defined.

(** ** The logger of the log sink *)

Lemma getLogger_insert name lg (loggers : gmap string Logger) :
  getLogger name (<[name := lg]> loggers) = lg.
Proof. unfold getLogger. by rewrite lookup_insert_eq. Qed.

(** X18. The configurations share one logger. When two configurations
    without a logger are used one after the other, both end up holding the
    logger that the module keeps under the name deprecation_logger; that
    logger has the handlers it had before, then the handler of the first
    configuration, then that of the second, and the level of the second. A
    later call through the first configuration goes to that same logger,
    with both handlers, and adds none. *)
Theorem create_log_shared_logger `{Datetime} config1 config2
  url1 method1 params1 dep1 sun1 url2 method2 params2 dep2 sun2
  url3 method3 params3 dep3 sun3 loggers :
  logger config1 = None →
  logger config2 = None →
  let first := create_log config1 url1 method1 params1 dep1 sun1 loggers in
  let second :=
    create_log config2 url2 method2 params2 dep2 sun2 first.1.2 in
  let third :=
    create_log first.1.1 url3 method3 params3 dep3 sun3 second.1.2 in
  logger first.1.1 = Some "deprecation_logger" ∧
  logger second.1.1 = Some "deprecation_logger" ∧
  second.1.2 !! "deprecation_logger"
  = Some {| logger_name :=
              logger_name (getLogger "deprecation_logger" loggers);
            logger_level := lvl config2;
            logger_handlers :=
              logger_handlers (getLogger "deprecation_logger" loggers)
              ++ [(file config1, format config1);
                  (file config2, format config2)] |} ∧
  third.1.1 = first.1.1 ∧
  third.1.2 = second.1.2 ∧
  third.2.1 = "deprecation_logger".
Proof.
  destruct config1 as [lvl1 file1 format1 logger1].
  destruct config2 as [lvl2 file2 format2 logger2].
  cbn [logger]. intros -> ->.
  unfold create_log. cbn [logger lvl file format fst snd].
  repeat split.
  rewrite lookup_insert_eq, !getLogger_insert.
  cbn [logger_name logger_handlers]. by rewrite <-app_assoc.
Qed.

Lemma create_log_shared_logger_witness :
  let config1 := {| lvl := 10; file := "a.log"; format := "%(message)s";
                    logger := None |} in
  let config2 := {| lvl := 30; file := "b.log"; format := "%(message)s";
                    logger := None |} in
  let first :=
    @create_log text_datetime config1 "/users" "GET" None None None ∅ in
  let second :=
    @create_log text_datetime config2 "/users" "GET" None None None
      first.1.2 in
  second.1.2 !! "deprecation_logger"
  = Some {| logger_name := "deprecation_logger";
            logger_level := 30;
            logger_handlers := [("a.log", "%(message)s");
                                ("b.log", "%(message)s")] |}.
Proof.
  intros config1 config2 first second.
  exact (proj1 (proj2 (proj2
    (@create_log_shared_logger text_datetime config1 config2
       "/users" "GET" None None None "/users" "GET" None None None
       "/users" "GET" None None None ∅ eq_refl eq_refl)))).
Defined.

(** ** The loop of updates *)

Lemma send_until_failure_stops (P : PoolManager) calls n :
  let '(r, (n', sent)) := @send_until_failure P calls n in
  sent `prefix_of` calls ∧
  (r = Ok () → sent = calls) ∧
  (∀ e, r = Raise e →
     ∃ before c n1,
       sent = before ++ [c] ∧ @request P c n1 = (Raise e, n')).
Proof.
  revert n. induction calls as [|c rest IH]; intros n; cbn [send_until_failure].
  { split; [done|]. split; [done|]. by intros e [=]. }
  destruct (@request P c n) as [[resp|e] n1] eqn:Hreq.
  - specialize (IH n1).
    destruct (@send_until_failure P rest n1) as [r [n' sent]].
    destruct IH as (Hprefix & Hall & Hfail).
    split; [by apply prefix_cons|]. split.
    + intros Hr. by rewrite (Hall Hr).
    + intros e Hr. destruct (Hfail e Hr) as (before & c' & n2 & -> & Hc').
      by exists (c :: before), c', n2.
  - split; [by apply prefix_cons, prefix_nil|]. split; [by intros [=]|].
    intros e' [= <-]. by exists [], c, n.
Qed.

(** X19. The loop that adds the missing parameters sends the updates for
    the parameters the issue lacks one after the other, in the order of the
    given parameters, and stops at the first one that fails: it does what
    sending that list of calls up to and including the first that raises
    does. So the calls sent are a first part of the list, all of it when the
    loop ends well, and when the loop raises, the last call sent is the one
    that raised; the updates sent before it are not taken back. *)
Theorem update_loop_in_order (P : PoolManager) dumps config issue id
  (labels params : list string) n log :
  py_getitem issue "id" = Ok id →
  let updates :=
    map (update_call dumps config id) (filter (λ p, p ∉ labels) params) in
  let '(r, (n', sent)) := @send_until_failure P updates n in
  @add_missing_parameters (recording P) dumps config issue
    (JArr (map JStr labels)) params (n, log)
  = (r, (n', log ++ sent)) ∧
  sent `prefix_of` updates ∧
  (r = Ok () → sent = updates) ∧
  (∀ e, r = Raise e →
     ∃ before c n1,
       sent = before ++ [c] ∧ @request P c n1 = (Raise e, n')).
Proof.
  intros Hid updates.
  pose proof (send_until_failure_stops P updates n) as Hstops.
  destruct (@send_until_failure P updates n) as [r [n' sent]] eqn:Hrun.
  split; [|exact Hstops]. clear Hstops. subst updates.
  revert n log r n' sent Hrun.
  induction params as [|param rest IH]; intros n log r n' sent Hrun.
  { cbn in Hrun. injection Hrun as <- <- <-. cbn. by rewrite app_nil_r. }
  cbn [add_missing_parameters]. unfold io_bind at 1, lift at 1.
  cbn [py_contains]. rewrite existsb_py_eq_strs.
  rewrite filter_cons in Hrun.
  destruct (decide (param ∈ labels)) as [Hin|Hnot].
  - rewrite bool_decide_eq_true_2 by done.
    rewrite decide_False in Hrun by (by intros Hn). by apply IH.
  - rewrite bool_decide_eq_false_2 by done.
    rewrite decide_True in Hrun by done.
    cbn [map send_until_failure] in Hrun.
    unfold io_bind at 1, lift at 1. rewrite Hid.
    unfold io_bind at 1. fold (update_call dumps config id param).
    cbn [request recording fst snd].
    destruct (@request P (update_call dumps config id param) n)
      as [[resp|e] n1].
    + destruct (@send_until_failure P
                  (map (update_call dumps config id)
                     (filter (λ p, p ∉ labels) rest)) n1)
        as [r1 [n1' sent1]] eqn:Hrest.
      injection Hrun as <- <- <-.
      rewrite (IH n1 (log ++ [update_call dumps config id param]) r1 n1' sent1
                 Hrest).
      by rewrite <-app_assoc.
    + by injection Hrun as <- <- <-.
Qed.

Lemma update_loop_in_order_witness :
  @add_missing_parameters (recording flaky_remote) example_dumps example_jira
    (JObj [("id", JStr "10042")]) (JArr (map JStr ["limit"]))
    ["a"; "limit"; "b"; "c"] (0, [])
  = (Raise TransportError,
     (2, [] ++ [update_call example_dumps example_jira (JStr "10042") "a";
                update_call example_dumps example_jira (JStr "10042") "b"])).
Proof.
  exact (proj1 (update_loop_in_order flaky_remote example_dumps example_jira
                  (JObj [("id", JStr "10042")]) (JStr "10042") ["limit"]
                  ["a"; "limit"; "b"; "c"] 0 [] eq_refl)).
Defined.
